(** * HRMS Lite backend: employees and daily attendance

    A shallow embedding of [main.py]: the two tables and their constraints,
    the pydantic schemas with their field validators, and the seven route
    handlers, written as functions that take the database session and give
    back the response together with the session after the request.

    Python [str] values are [string]s whose characters are the code points
    below 256; [Integer] columns are [Z]. *)

From Stdlib Require Import String Ascii List ZArith NArith Bool Lia Permutation.
Import ListNotations.

Open Scope string_scope.
Open Scope Z_scope.

(* ================================================================== *)
(** * Part I: definitions *)
(* ================================================================== *)

(** ** Strings: [str.strip], [str.lower], [str.split] *)

Definition ord (c : ascii) : Z := Z.of_N (N_of_ascii c).

Definition between (lo hi : Z) (c : ascii) : bool :=
  (lo <=? ord c) && (ord c <=? hi).

(** [str.isspace] on one character: tab to carriage return, the four
    separators 0x1c-0x1f, space, NEL and the no-break space. *)
Definition isspace (c : ascii) : bool :=
  between 9 13 c || between 28 32 c || (ord c =? 133) || (ord c =? 160).

(** [str.lower] on one character: A-Z, and the accented capitals
    0xc0-0xde (the multiplication sign 0xd7 left alone), move up by 32. *)
Definition lower_char (c : ascii) : ascii :=
  if between 65 90 c || (between 192 222 c && negb (ord c =? 215))
  then ascii_of_N (N_of_ascii c + 32)
  else c.

Fixpoint lower (s : string) : string :=
  match s with
  | EmptyString => EmptyString
  | String c s' => String (lower_char c) (lower s')
  end.

Fixpoint lstrip (s : string) : string :=
  match s with
  | EmptyString => EmptyString
  | String c s' => if isspace c then lstrip s' else s
  end.

Fixpoint rstrip (s : string) : string :=
  match s with
  | EmptyString => EmptyString
  | String c s' =>
      match rstrip s' with
      | EmptyString => if isspace c then EmptyString else String c EmptyString
      | r => String c r
      end
  end.

Definition strip (s : string) : string := rstrip (lstrip s).

(** [s.split(sep)] for a one-character separator. *)
Fixpoint split (sep : ascii) (s : string) : list string :=
  match s with
  | EmptyString => [EmptyString]
  | String c s' =>
      if Ascii.eqb c sep then EmptyString :: split sep s'
      else match split sep s' with
           | h :: t => String c h :: t
           | [] => [String c EmptyString]
           end
  end.

(** Python truthiness of a [str]: the empty string is false. *)
Definition nonempty (s : string) : bool :=
  match s with EmptyString => false | String _ _ => true end.


(** A string that [lstrip] leaves alone does not start with white space. *)
Definition head_ok (s : string) : Prop :=
  match s with
  | EmptyString => True
  | String c _ => isspace c = false
  end.

(** ** Regular expressions: the part of [re] the e-mail pattern uses *)

Inductive item : Type :=
| Range (lo hi : ascii)
| Single (c : ascii).

Definition in_item (c : ascii) (i : item) : bool :=
  match i with
  | Range lo hi => between (ord lo) (ord hi) c
  | Single x => Ascii.eqb c x
  end.

Definition in_class (cls : list item) (c : ascii) : bool :=
  existsb (in_item c) cls.

Inductive regex : Type :=
| Void
| Eps
| Class (cls : list item)
| Cat (r1 r2 : regex)
| Alt (r1 r2 : regex)
| Star (r : regex).

Definition Lit (c : ascii) : regex := Class [Single c].
Definition Plus (r : regex) : regex := Cat r (Star r).

Fixpoint nullable (r : regex) : bool :=
  match r with
  | Void => false
  | Eps => true
  | Class _ => false
  | Cat r1 r2 => nullable r1 && nullable r2
  | Alt r1 r2 => nullable r1 || nullable r2
  | Star _ => true
  end.

Fixpoint deriv (c : ascii) (r : regex) : regex :=
  match r with
  | Void => Void
  | Eps => Void
  | Class cls => if in_class cls c then Eps else Void
  | Cat r1 r2 =>
      if nullable r1 then Alt (Cat (deriv c r1) r2) (deriv c r2)
      else Cat (deriv c r1) r2
  | Alt r1 r2 => Alt (deriv c r1) (deriv c r2)
  | Star r1 => Cat (deriv c r1) (Star r1)
  end.

Fixpoint fullmatch (r : regex) (s : string) : bool :=
  match s with
  | EmptyString => nullable r
  | String c s' => fullmatch (deriv c r) s'
  end.

(** The string without its last character, when that character is a
    newline. *)
Fixpoint chomp (s : string) : option string :=
  match s with
  | EmptyString => None
  | String c EmptyString => if Ascii.eqb c "010" then Some EmptyString else None
  | String c s' => option_map (String c) (chomp s')
  end.

(** [re.match("^" r "$", s)] as a truth value: [$] matches at the end of
    the string and also just before a newline that ends it. *)
Definition re_match (r : regex) (s : string) : bool :=
  fullmatch r s
  || match chomp s with Some s' => fullmatch r s' | None => false end.

Definition alnum : list item := [Range "a" "z"; Range "A" "Z"; Range "0" "9"].

(** [^[a-zA-Z0-9_.+-]+@[a-zA-Z0-9-]+\.[a-zA-Z0-9-.]+$] *)
Definition local_class : list item :=
  alnum ++ [Single "_"; Single "."; Single "+"; Single "-"].
Definition domain_class : list item := alnum ++ [Single "-"].
Definition suffix_class : list item := alnum ++ [Single "-"; Single "."].

Definition pattern : regex :=
  Cat (Plus (Class local_class))
      (Cat (Lit "@")
           (Cat (Plus (Class domain_class))
                (Cat (Lit ".") (Plus (Class suffix_class))))).



(** ** Calendar dates: [datetime.date], [date.fromisoformat], [date.isoformat] *)

Record date : Type := mkdate { year : Z; month : Z; day : Z }.

Definition date_eqb (d1 d2 : date) : bool :=
  (year d1 =? year d2) && (month d1 =? month d2) && (day d1 =? day d2).

Definition is_leap (y : Z) : bool :=
  (y mod 4 =? 0) && (negb (y mod 100 =? 0) || (y mod 400 =? 0)).

Definition days_in_month (y m : Z) : Z :=
  if m =? 2 then (if is_leap y then 29 else 28)
  else if (m =? 4) || (m =? 6) || (m =? 9) || (m =? 11) then 30
  else 31.

(** The range check of the [date] constructor: years 1 to 9999. *)
Definition check_date_args (y m d : Z) : bool :=
  (1 <=? y) && (y <=? 9999) && (1 <=? m) && (m <=? 12)
  && (1 <=? d) && (d <=? days_in_month y m).

Definition valid_date (d : date) : bool :=
  check_date_args (year d) (month d) (day d).

Definition new_date (y m d : Z) : option date :=
  if check_date_args y m d then Some (mkdate y m d) else None.

Definition digit (c : ascii) : option Z :=
  if between 48 57 c then Some (ord c - 48) else None.

Definition digits2 (a b : ascii) : option Z :=
  match digit a, digit b with
  | Some x, Some y => Some (10 * x + y)
  | _, _ => None
  end.

Definition digits4 (a b c d : ascii) : option Z :=
  match digits2 a b, digits2 c d with
  | Some x, Some y => Some (100 * x + y)
  | _, _ => None
  end.

(** [date.fromisoformat] in its [YYYY-MM-DD] form, the one the handler's
    error message asks for and the only one the method took up to Python
    3.10: ten characters, ASCII digits around two hyphens, then the
    constructor's range check.  [None] stands for the [ValueError].  (From
    Python 3.11 on the method also takes the other ISO 8601 date forms,
    [YYYYMMDD] and the week dates; they are left out here.) *)
Definition fromisoformat (s : string) : option date :=
  match s with
  | String y1 (String y2 (String y3 (String y4 (String h1
    (String m1 (String m2 (String h2 (String d1 (String d2 EmptyString))))))))) =>
      if Ascii.eqb h1 "-" && Ascii.eqb h2 "-" then
        match digits4 y1 y2 y3 y4, digits2 m1 m2, digits2 d1 d2 with
        | Some y, Some m, Some d => new_date y m d
        | _, _, _ => None
        end
      else None
  | _ => None
  end.

Definition digit_char (n : Z) : ascii := ascii_of_N (Z.to_N (48 + n)).

(** ["%02d"] and ["%04d"] on the numbers a [date] holds. *)
Definition pad2 (n : Z) (rest : string) : string :=
  String (digit_char (n / 10 mod 10)) (String (digit_char (n mod 10)) rest).

Definition pad4 (n : Z) (rest : string) : string :=
  pad2 (n / 100) (pad2 (n mod 100) rest).

(** [date.isoformat]: ["%04d-%02d-%02d"]. *)
Definition isoformat (d : date) : string :=
  pad4 (year d) (String "-" (pad2 (month d) (String "-" (pad2 (day d) EmptyString)))).

(** ** ORM models: the two tables *)

Module EmployeeModel.
Record t : Type := Build {
  id : Z;
  employee_id : string;
  full_name : string;
  email : string;
  department : string
}.
End EmployeeModel.

Module AttendanceModel.
Record t : Type := Build {
  id : Z;
  employee_id : Z;   (* ForeignKey("employees.id") *)
  date : date;
  status : string
}.

Definition with_status (s : string) (r : t) : t :=
  Build (id r) (employee_id r) (date r) s.
End AttendanceModel.

(** The database as one session sees it: the rows of both tables in
    storage order and the next value of each primary-key sequence. *)
Record Session : Type := mkSession {
  employees : list EmployeeModel.t;
  attendance : list AttendanceModel.t;
  employees_id_seq : Z;
  attendance_id_seq : Z
}.

Definition empty_db : Session := mkSession [] [] 1 1.

(** ** Outcomes *)

(** A pydantic model under construction: the model, or the messages of the
    validators that raised. *)
Inductive validated (A : Type) : Type :=
| Valid (a : A)
| Invalid (errors : list string).
Arguments Valid {A} a.
Arguments Invalid {A} errors.

Definition ap {A B : Type} (f : validated (A -> B)) (x : validated A) : validated B :=
  match f, x with
  | Valid g, Valid a => Valid (g a)
  | Valid _, Invalid e => Invalid e
  | Invalid e, Valid _ => Invalid e
  | Invalid e1, Invalid e2 => Invalid (e1 ++ e2)%list
  end.

(** What the client gets: the handler's return value under the route's
    status code, an [HTTPException], the 422 of a request body that fails
    validation, or the 500 of any other exception. *)
Inductive response (A : Type) : Type :=
| Response (status_code : Z) (body : A)
| HTTPException (status_code : Z) (detail : string)
| RequestValidationError (errors : list string)
| InternalServerError.
Arguments Response {A} status_code body.
Arguments HTTPException {A} status_code detail.
Arguments RequestValidationError {A} errors.
Arguments InternalServerError {A}.

Definition status_code {A : Type} (r : response A) : Z :=
  match r with
  | Response c _ => c
  | HTTPException c _ => c
  | RequestValidationError _ => 422
  | InternalServerError => 500
  end.

(** A model built inside a handler: a validator that raises there is an
    unhandled exception. *)
Definition returning {A : Type} (code : Z) (v : validated A) : response A :=
  match v with
  | Valid a => Response code a
  | Invalid _ => InternalServerError
  end.

Fixpoint construct_all {A B : Type} (f : A -> option B) (l : list A) : option (list B) :=
  match l with
  | [] => Some []
  | x :: l' =>
      match f x with
      | None => None
      | Some y =>
          match construct_all f l' with
          | None => None
          | Some ys => Some (y :: ys)
          end
      end
  end.

Definition raised {A : Type} (v : validated A) : option A :=
  match v with Valid a => Some a | Invalid _ => None end.

(** ** Schemas *)

Module EmployeeCreate.
Record t : Type := Build {
  employee_id : string;
  full_name : string;
  email : string;
  department : string
}.

Definition validate_employee_id (v : string) : validated string :=
  let v := strip v in
  if nonempty v then Valid v else Invalid ["Employee ID is required"].

Definition validate_full_name (v : string) : validated string :=
  let v := strip v in
  if nonempty v then Valid v else Invalid ["Full name is required"].

Definition validate_email (v : string) : validated string :=
  let v := lower (strip v) in
  if re_match pattern v then Valid v else Invalid ["Invalid email format"].

Definition validate_department (v : string) : validated string :=
  let v := strip v in
  if nonempty v then Valid v else Invalid ["Department is required"].

(** The constructor: every field validator runs, errors are collected. *)
Definition new (employee_id full_name email department : string) : validated t :=
  ap (ap (ap (ap (Valid Build)
                 (validate_employee_id employee_id))
             (validate_full_name full_name))
         (validate_email email))
     (validate_department department).

Definition validate (raw : t) : validated t :=
  new (employee_id raw) (full_name raw) (email raw) (department raw).
End EmployeeCreate.

(** [class Employee(EmployeeCreate): pass] *)
Module Employee := EmployeeCreate.

Module AttendanceCreate.
Record t : Type := Build {
  employee_id : string;
  date : string;
  status : string
}.

Definition validate_employee_id (v : string) : validated string :=
  if nonempty (strip v) then Valid (strip v)
  else Invalid ["Employee ID is required"].

Definition validate_date (v : string) : validated string :=
  match fromisoformat v with
  | Some _ => Valid v
  | None => Invalid ["Invalid date format. Use YYYY-MM-DD"]
  end.

(** [Literal["Present", "Absent"]] *)
Definition validate_status (v : string) : validated string :=
  if String.eqb v "Present" || String.eqb v "Absent" then Valid v
  else Invalid ["Input should be 'Present' or 'Absent'"].

Definition new (employee_id date status : string) : validated t :=
  ap (ap (ap (Valid Build)
             (validate_employee_id employee_id))
         (validate_date date))
     (validate_status status).

Definition validate (raw : t) : validated t :=
  new (employee_id raw) (date raw) (status raw).
End AttendanceCreate.

Module AttendanceRecord := AttendanceCreate.

(** ** The session's statements *)

(** [EmployeeModel(employee_id=data.employee_id, ...)] once it has its
    primary key. *)
Definition employee_row (pk : Z) (data : EmployeeCreate.t) : EmployeeModel.t :=
  EmployeeModel.Build pk
    (EmployeeCreate.employee_id data) (EmployeeCreate.full_name data)
    (EmployeeCreate.email data) (EmployeeCreate.department data).

(** [db.add(employee); db.commit()]: the INSERT takes the next value of the
    sequence as primary key; [None] is the IntegrityError of the two
    [unique=True] columns. *)
Definition insert_employee (data : EmployeeCreate.t) (db : Session)
  : option (Z * Session) :=
  if existsb (fun e => String.eqb (EmployeeModel.employee_id e)
                                  (EmployeeCreate.employee_id data)) (employees db)
     || existsb (fun e => String.eqb (EmployeeModel.email e)
                                     (EmployeeCreate.email data)) (employees db)
  then None
  else
    let pk := employees_id_seq db in
    Some (pk, mkSession (employees db ++ [employee_row pk data]) (attendance db)
                        (pk + 1) (attendance_id_seq db)).

(** [db.refresh(obj)]: the row is read again by primary key. *)
Definition refresh_employee (pk : Z) (db : Session) : option EmployeeModel.t :=
  find (fun e => EmployeeModel.id e =? pk) (employees db).

Definition refresh_attendance (pk : Z) (db : Session) : option AttendanceModel.t :=
  find (fun a => AttendanceModel.id a =? pk) (attendance db).

(** [db.delete(employee); db.commit()]: the employee's row goes, and with
    it (cascade on the relationship and on the foreign key) every
    attendance row that refers to it. *)
Definition delete_cascade (employee : EmployeeModel.t) (db : Session) : Session :=
  mkSession
    (filter (fun e => negb (EmployeeModel.id e =? EmployeeModel.id employee))
            (employees db))
    (filter (fun a => negb (AttendanceModel.employee_id a =? EmployeeModel.id employee))
            (attendance db))
    (employees_id_seq db) (attendance_id_seq db).

(** The row of one employee on one day: the two columns of
    [uq_employee_date]. *)
Definition same_key (employee_pk : Z) (d : date) (a : AttendanceModel.t) : bool :=
  (AttendanceModel.employee_id a =? employee_pk) && date_eqb (AttendanceModel.date a) d.

(** [db.add(record); db.commit()]: [None] is the IntegrityError of
    [uq_employee_date] or of the foreign key. *)
Definition insert_attendance (employee_pk : Z) (d : date) (status : string)
    (db : Session) : option (Z * Session) :=
  if existsb (same_key employee_pk d) (attendance db)
     || negb (existsb (fun e => EmployeeModel.id e =? employee_pk) (employees db))
  then None
  else
    let pk := attendance_id_seq db in
    Some (pk, mkSession (employees db)
                        (attendance db ++ [AttendanceModel.Build pk employee_pk d status])
                        (employees_id_seq db) (pk + 1)).

(** [record.status = ...; db.commit()]: UPDATE ... WHERE id = record.id. *)
Definition update_status (pk : Z) (status : string) (db : Session) : Session :=
  mkSession (employees db)
    (map (fun a => if AttendanceModel.id a =? pk
                   then AttendanceModel.with_status status a else a)
         (attendance db))
    (employees_id_seq db) (attendance_id_seq db).

(** [db.query(AttendanceModel).join(EmployeeModel)]: the inner join on the
    foreign key. *)
Definition join_employee (db : Session) : list (AttendanceModel.t * EmployeeModel.t) :=
  flat_map
    (fun a => map (pair a)
                (filter (fun e => EmployeeModel.id e =? AttendanceModel.employee_id a)
                        (employees db)))
    (attendance db).

(** [rec.employee]: the many-to-one side of the relationship. *)
Definition employee_of (db : Session) (rec : AttendanceModel.t) : option EmployeeModel.t :=
  find (fun e => EmployeeModel.id e =? AttendanceModel.employee_id rec) (employees db).

(** ** Routes *)

Definition root : response (list (string * string)) :=
  Response 200 [("message", "HRMS Lite API is running"); ("version", "1.0.0")].

Definition to_schema (e : EmployeeModel.t) : validated Employee.t :=
  Employee.new (EmployeeModel.employee_id e) (EmployeeModel.full_name e)
               (EmployeeModel.email e) (EmployeeModel.department e).

Definition list_employees (db : Session) : response (list Employee.t) * Session :=
  match construct_all (fun e => raised (to_schema e)) (employees db) with
  | Some l => (Response 200 l, db)
  | None => (InternalServerError, db)
  end.

Definition create_employee (data : EmployeeCreate.t) (db : Session)
  : response Employee.t * Session :=
  match find (fun e => String.eqb (EmployeeModel.employee_id e)
                                  (EmployeeCreate.employee_id data)) (employees db) with
  | Some _ =>
      (HTTPException 409
         ("Employee with ID '" ++ EmployeeCreate.employee_id data ++ "' already exists"),
       db)
  | None =>
      match find (fun e => String.eqb (EmployeeModel.email e)
                                      (EmployeeCreate.email data)) (employees db) with
      | Some _ =>
          (HTTPException 409
             ("Email '" ++ EmployeeCreate.email data ++ "' is already registered"),
           db)
      | None =>
          match insert_employee data db with
          | None => (InternalServerError, db)
          | Some (pk, db') =>
              match refresh_employee pk db' with
              | None => (InternalServerError, db')
              | Some employee => (returning 201 (to_schema employee), db')
              end
          end
      end
  end.

Definition get_employee (employee_id : string) (db : Session)
  : response Employee.t * Session :=
  match find (fun e => String.eqb (EmployeeModel.employee_id e) employee_id)
             (employees db) with
  | None => (HTTPException 404 ("Employee '" ++ employee_id ++ "' not found"), db)
  | Some employee => (returning 200 (to_schema employee), db)
  end.

Definition delete_employee (employee_id : string) (db : Session)
  : response (list (string * string)) * Session :=
  match find (fun e => String.eqb (EmployeeModel.employee_id e) employee_id)
             (employees db) with
  | None => (HTTPException 404 ("Employee '" ++ employee_id ++ "' not found"), db)
  | Some employee =>
      (Response 200 [("message", "Employee '" ++ employee_id ++ "' deleted successfully")],
       delete_cascade employee db)
  end.

(** One element of the result list of [list_attendance]. *)
Definition to_record (db : Session) (rec : AttendanceModel.t)
  : option AttendanceRecord.t :=
  match employee_of db rec with
  | None => None
  | Some employee =>
      raised (AttendanceRecord.new (EmployeeModel.employee_id employee)
                                   (isoformat (AttendanceModel.date rec))
                                   (AttendanceModel.status rec))
  end.

Definition list_attendance (employee_id date : option string) (db : Session)
  : response (list AttendanceRecord.t) * Session :=
  let query := join_employee db in
  let query :=
    match employee_id with
    | Some v =>
        if nonempty v
        then filter (fun ae => String.eqb (EmployeeModel.employee_id (snd ae)) v) query
        else query
    | None => query
    end in
  (* if date: try: date_parsed = date.split("T")[0]  except Exception: 400 *)
  let parsed :=
    match date with
    | Some v => if nonempty v then nth_error (split "T" v) 0 else Some v
    | None => Some EmptyString
    end in
  match parsed with
  | None => (HTTPException 400 "Invalid date format. Use YYYY-MM-DD", db)
  | Some _ =>
      let records := map fst query in
      match construct_all (to_record db) records with
      | Some result => (Response 200 result, db)
      | None => (InternalServerError, db)
      end
  end.

Definition mark_attendance (data : AttendanceCreate.t) (db : Session)
  : response AttendanceRecord.t * Session :=
  match find (fun e => String.eqb (EmployeeModel.employee_id e)
                                  (AttendanceCreate.employee_id data)) (employees db) with
  | None =>
      (HTTPException 404
         ("Employee '" ++ AttendanceCreate.employee_id data ++ "' not found"), db)
  | Some employee =>
      match fromisoformat (AttendanceCreate.date data) with
      | None => (InternalServerError, db)
      | Some attendance_date =>
          let committed :=
            match find (same_key (EmployeeModel.id employee) attendance_date)
                       (attendance db) with
            | Some record =>
                Some (AttendanceModel.id record,
                      update_status (AttendanceModel.id record)
                                    (AttendanceCreate.status data) db)
            | None =>
                insert_attendance (EmployeeModel.id employee) attendance_date
                                  (AttendanceCreate.status data) db
            end in
          match committed with
          | None => (InternalServerError, db)
          | Some (pk, db') =>
              match refresh_attendance pk db' with
              | None => (InternalServerError, db')
              | Some record =>
                  (returning 201
                     (AttendanceRecord.new (EmployeeModel.employee_id employee)
                                           (isoformat (AttendanceModel.date record))
                                           (AttendanceModel.status record)),
                   db')
              end
          end
      end
  end.

(** ** The application: request bodies are validated before the handler runs *)

Definition post_employees (body : EmployeeCreate.t) (db : Session)
  : response Employee.t * Session :=
  match EmployeeCreate.validate body with
  | Invalid errors => (RequestValidationError errors, db)
  | Valid data => create_employee data db
  end.

Definition post_attendance (body : AttendanceCreate.t) (db : Session)
  : response AttendanceRecord.t * Session :=
  match AttendanceCreate.validate body with
  | Invalid errors => (RequestValidationError errors, db)
  | Valid data => mark_attendance data db
  end.

Inductive request : Type :=
| GET_root
| GET_employees
| POST_employees (body : EmployeeCreate.t)
| GET_employee (employee_id : string)
| DELETE_employee (employee_id : string)
| GET_attendance (employee_id date : option string)
| POST_attendance (body : AttendanceCreate.t).

(** The session after a request. *)
Definition step (r : request) (db : Session) : Session :=
  match r with
  | GET_root => db
  | GET_employees => snd (list_employees db)
  | POST_employees body => snd (post_employees body db)
  | GET_employee employee_id => snd (get_employee employee_id db)
  | DELETE_employee employee_id => snd (delete_employee employee_id db)
  | GET_attendance employee_id date => snd (list_attendance employee_id date db)
  | POST_attendance body => snd (post_attendance body db)
  end.

(** The store states the application can be in: the empty schema, and
    whatever a request leaves behind. *)
Inductive reachable : Session -> Prop :=
| reach_empty : reachable empty_db
| reach_step r db : reachable db -> reachable (step r db).

Definition run (rs : list request) (db : Session) : Session :=
  fold_left (fun db r => step r db) rs db.

(** ** The schema's constraints, as a predicate on sessions *)

(** The columns of [uq_employee_date]. *)
Definition key (a : AttendanceModel.t) : Z * date :=
  (AttendanceModel.employee_id a, AttendanceModel.date a).

(** The schema object a row is returned as, when its validators pass. *)
Definition row_schema (e : EmployeeModel.t) : Employee.t :=
  Employee.Build (EmployeeModel.employee_id e) (EmployeeModel.full_name e)
                 (EmployeeModel.email e) (EmployeeModel.department e).

(** A row holds values that went through the validators: building the
    schema object from it gives its own columns back. *)
Definition employee_valid (e : EmployeeModel.t) : Prop :=
  to_schema e = Valid (row_schema e).

Definition attendance_valid (a : AttendanceModel.t) : Prop :=
  valid_date (AttendanceModel.date a) = true
  /\ AttendanceRecord.validate_status (AttendanceModel.status a)
     = Valid (AttendanceModel.status a).

Record consistent (db : Session) : Prop := {
  pk_employees : NoDup (map EmployeeModel.id (employees db));
  seq_employees :
    Forall (fun e => EmployeeModel.id e < employees_id_seq db) (employees db);
  uq_employee_id : NoDup (map EmployeeModel.employee_id (employees db));
  uq_email : NoDup (map EmployeeModel.email (employees db));
  pk_attendance : NoDup (map AttendanceModel.id (attendance db));
  seq_attendance :
    Forall (fun a => AttendanceModel.id a < attendance_id_seq db) (attendance db);
  fk_attendance :
    Forall (fun a => In (AttendanceModel.employee_id a)
                        (map EmployeeModel.id (employees db))) (attendance db);
  uq_employee_date : NoDup (map key (attendance db));
  rows_employees : Forall employee_valid (employees db);
  rows_attendance : Forall attendance_valid (attendance db)
}.

(** The external identifier of the employee an attendance row belongs to. *)
Definition owner_is (db : Session) (v : string) (a : AttendanceModel.t) : bool :=
  match employee_of db a with
  | Some e => String.eqb (EmployeeModel.employee_id e) v
  | None => false
  end.

(** The record [list_attendance] returns for a row of employee [v]. *)
Definition record_of (v : string) (a : AttendanceModel.t) : AttendanceRecord.t :=
  AttendanceRecord.Build v (isoformat (AttendanceModel.date a)) (AttendanceModel.status a).

Definition owner_id (db : Session) (a : AttendanceModel.t) : string :=
  match employee_of db a with
  | Some e => EmployeeModel.employee_id e
  | None => EmptyString
  end.

(** The rows the [employee_id] filter of [list_attendance] lets through:
    all of them when the parameter is absent or empty. *)
Definition selected (db : Session) (employee_id : option string)
    (a : AttendanceModel.t) : bool :=
  match employee_id with
  | Some v => if nonempty v then owner_is db v a else true
  | None => true
  end.

(** ** Sample requests: the example of the specification *)

Definition ann : EmployeeCreate.t :=
  EmployeeCreate.Build "E1" "Ann Lee" "ann@x.com" "Eng".

(** The same employee as a client may send her. *)
Definition ann_raw : EmployeeCreate.t :=
  EmployeeCreate.Build "  E1 " "Ann Lee " " Ann@X.com" "Eng".

Definition bob : EmployeeCreate.t :=
  EmployeeCreate.Build "E2" "Bob Ray" "bob@x.com" "Ops".

Definition present (employee_id date : string) : AttendanceCreate.t :=
  AttendanceCreate.Build employee_id date "Present".

Definition absent (employee_id date : string) : AttendanceCreate.t :=
  AttendanceCreate.Build employee_id date "Absent".

(** Ann alone, with no attendance. *)
Definition db_ann : Session := run [POST_employees ann_raw] empty_db.

(** Ann present on two days, Bob absent on the first. *)
Definition db_week : Session :=
  run [POST_employees ann_raw; POST_employees bob;
       POST_attendance (present "E1" "2024-01-01");
       POST_attendance (absent "E2" "2024-01-01");
       POST_attendance (present "E1" "2024-01-02")] empty_db.

(** ** The attendance list over the PostgreSQL driver *)



(** ** What the client sees of a request *)

(** The status code of the answer to a request. *)
Definition answer (r : request) (db : Session) : Z :=
  match r with
  | GET_root => status_code root
  | GET_employees => status_code (fst (list_employees db))
  | POST_employees body => status_code (fst (post_employees body db))
  | GET_employee employee_id => status_code (fst (get_employee employee_id db))
  | DELETE_employee employee_id => status_code (fst (delete_employee employee_id db))
  | GET_attendance employee_id date => status_code (fst (list_attendance employee_id date db))
  | POST_attendance body => status_code (fst (post_attendance body db))
  end.

(** The routes registered with [@app.get]. *)
Definition is_get (r : request) : bool :=
  match r with
  | GET_root | GET_employees | GET_employee _ | GET_attendance _ _ => true
  | POST_employees _ | DELETE_employee _ | POST_attendance _ => false
  end.

(* ================================================================== *)
(** * Part II: properties *)
(* ================================================================== *)

(** ** Characters and strings *)

Ltac each_char c := destruct c as [[] [] [] [] [] [] [] []].

Lemma isspace_lower_char (c : ascii) : isspace (lower_char c) = isspace c.
Proof. each_char c; reflexivity. Qed.

Lemma lower_char_idem (c : ascii) : lower_char (lower_char c) = lower_char c.
Proof. each_char c; reflexivity. Qed.

Lemma lower_idem (s : string) : lower (lower s) = lower s.
Proof.
  induction s as [|c s IH]; simpl; [reflexivity|].
  now rewrite lower_char_idem, IH.
Qed.

Lemma nonempty_true (s : string) : nonempty s = true <-> s <> EmptyString.
Proof. destruct s; simpl; split; congruence. Qed.

Lemma lstrip_head_ok (s : string) : head_ok (lstrip s).
Proof.
  induction s as [|c s IH]; simpl; [exact I|].
  destruct (isspace c) eqn:E; [exact IH | exact E].
Qed.

Lemma lstrip_fixed (s : string) : head_ok s -> lstrip s = s.
Proof. destruct s as [|c s]; simpl; [reflexivity|]. now intros ->. Qed.

Lemma rstrip_cons (c : ascii) (s : string) :
  rstrip (String c s) =
  match rstrip s with
  | EmptyString => if isspace c then EmptyString else String c EmptyString
  | r => String c r
  end.
Proof. reflexivity. Qed.

Lemma rstrip_head_ok (s : string) : head_ok s -> head_ok (rstrip s).
Proof.
  destruct s as [|c s]; simpl; [exact (fun H => H)|]; intros H.
  destruct (rstrip s); [rewrite H|]; exact H.
Qed.

Lemma rstrip_idem (s : string) : rstrip (rstrip s) = rstrip s.
Proof.
  induction s as [|c s IH]; simpl; [reflexivity|].
  destruct (rstrip s) as [|c' r] eqn:E.
  - destruct (isspace c) eqn:Ec; simpl; [reflexivity | now rewrite Ec].
  - change (rstrip (String c (String c' r))) with
      (match rstrip (String c' r) with
       | EmptyString => if isspace c then EmptyString else String c EmptyString
       | r0 => String c r0
       end).
    now rewrite IH.
Qed.

Lemma strip_idem (s : string) : strip (strip s) = strip s.
Proof.
  unfold strip.
  rewrite (lstrip_fixed (rstrip (lstrip s))).
  - apply rstrip_idem.
  - apply rstrip_head_ok, lstrip_head_ok.
Qed.

Lemma lstrip_lower (s : string) : lstrip (lower s) = lower (lstrip s).
Proof.
  induction s as [|c s IH]; simpl; [reflexivity|].
  rewrite isspace_lower_char. now destruct (isspace c).
Qed.

Lemma rstrip_lower (s : string) : rstrip (lower s) = lower (rstrip s).
Proof.
  induction s as [|c s IH]; simpl; [reflexivity|].
  rewrite IH, isspace_lower_char.
  destruct (rstrip s); simpl; [now destruct (isspace c) | reflexivity].
Qed.

Lemma strip_lower (s : string) : strip (lower s) = lower (strip s).
Proof. unfold strip. now rewrite lstrip_lower, rstrip_lower. Qed.

(** Normalising a normalised e-mail address changes nothing. *)
Lemma lower_strip_idem (s : string) :
  lower (strip (lower (strip s))) = lower (strip s).
Proof. now rewrite strip_lower, strip_idem, lower_idem. Qed.

(** A string that [rstrip] leaves alone does not end in a newline, so
    [$] can only match at its very end. *)
Lemma chomp_rstrip (s : string) : rstrip s = s -> chomp s = None.
Proof.
  induction s as [|c s IH]; [reflexivity|].
  rewrite rstrip_cons. intros H.
  destruct s as [|c' s'].
  - simpl in *. destruct (Ascii.eqb c "010") eqn:E; [|reflexivity].
    apply Ascii.eqb_eq in E. subst c. discriminate H.
  - change (chomp (String c (String c' s')))
      with (option_map (String c) (chomp (String c' s'))).
    rewrite IH; [reflexivity|].
    destruct (rstrip (String c' s')) eqn:E.
    + destruct (isspace c); discriminate H.
    + injection H as -> ->. reflexivity.
Qed.

Lemma rstrip_strip (s : string) : rstrip (strip s) = strip s.
Proof. apply rstrip_idem. Qed.

Lemma re_match_normalised (r : regex) (s : string) :
  re_match r (lower (strip s)) = fullmatch r (lower (strip s)).
Proof.
  unfold re_match. rewrite chomp_rstrip.
  - apply orb_false_r.
  - now rewrite rstrip_lower, rstrip_strip.
Qed.

Lemma split_not_nil (sep : ascii) (s : string) : split sep s <> [].
Proof.
  induction s as [|c s IH]; simpl; [discriminate|].
  destruct (Ascii.eqb c sep); [discriminate|].
  destruct (split sep s); discriminate.
Qed.

(** [s.split(sep)[0]] never raises [IndexError]. *)
Lemma split_first (sep : ascii) (s : string) :
  exists h, nth_error (split sep s) 0 = Some h.
Proof.
  destruct (split sep s) as [|h t] eqn:E.
  - now apply split_not_nil in E.
  - now exists h.
Qed.

(** ** The matcher decides the language of the pattern *)



Section Inversion.

Variables (r1 r2 : regex) (cls : list item) (s : string).






End Inversion.

Section Matcher.






End Matcher.





(** ** Dates: parsing and printing are inverse to each other *)

Lemma date_eqb_eq (d1 d2 : date) : date_eqb d1 d2 = true <-> d1 = d2.
Proof.
  destruct d1 as [y1 m1 a1], d2 as [y2 m2 a2]. unfold date_eqb. simpl.
  rewrite !andb_true_iff, !Z.eqb_eq. split.
  - intros [[-> ->] ->]. reflexivity.
  - intros H. injection H as -> -> ->. auto.
Qed.

Lemma date_eqb_refl (d : date) : date_eqb d d = true.
Proof. now apply date_eqb_eq. Qed.

Lemma digit_spec (c : ascii) (n : Z) :
  digit c = Some n -> 0 <= n <= 9 /\ digit_char n = c.
Proof.
  each_char c; intros H; vm_compute in H; try discriminate H;
    injection H as <-; (split; [lia | reflexivity]).
Qed.

Lemma digit_digit_char (n : Z) : 0 <= n <= 9 -> digit (digit_char n) = Some n.
Proof.
  intros H.
  rewrite <- (Z2Nat.id n) by lia.
  assert (L : (Z.to_nat n < 10)%nat) by lia.
  revert L. generalize (Z.to_nat n) as k. intros k L.
  do 10 (destruct k as [|k]; [reflexivity|]). lia.
Qed.

Lemma two_digits (x y : Z) :
  0 <= x <= 9 -> 0 <= y <= 9 ->
  (10 * x + y) / 10 mod 10 = x /\ (10 * x + y) mod 10 = y.
Proof.
  intros Hx Hy.
  assert (E : (10 * x + y) / 10 = x) by (symmetry; apply (Z.div_unique _ 10 x y); lia).
  rewrite E. split.
  - apply Z.mod_small. lia.
  - symmetry. apply (Z.mod_unique _ 10 x y); lia.
Qed.

Lemma digits2_spec (a b : ascii) (n : Z) :
  digits2 a b = Some n ->
  0 <= n <= 99 /\ forall rest, pad2 n rest = String a (String b rest).
Proof.
  unfold digits2, pad2. intros H.
  destruct (digit a) as [x|] eqn:Ea; [|discriminate].
  destruct (digit b) as [y|] eqn:Eb; [|discriminate].
  assert (En : n = 10 * x + y) by congruence. subst n. clear H.
  apply digit_spec in Ea, Eb. destruct Ea as [Hx <-], Eb as [Hy <-].
  destruct (two_digits x y Hx Hy) as [-> ->].
  split; [lia | reflexivity].
Qed.

Lemma digits2_pad2 (n : Z) :
  0 <= n <= 99 ->
  digits2 (digit_char (n / 10 mod 10)) (digit_char (n mod 10)) = Some n.
Proof.
  intros H. unfold digits2.
  assert (Hd : n = 10 * (n / 10) + n mod 10) by (apply Z.div_mod; lia).
  assert (Hr : 0 <= n mod 10 < 10) by (apply Z.mod_pos_bound; lia).
  rewrite (Z.mod_small (n / 10) 10) by lia.
  rewrite !digit_digit_char by lia.
  f_equal. lia.
Qed.

Lemma digits4_spec (a b c d : ascii) (n : Z) :
  digits4 a b c d = Some n ->
  0 <= n <= 9999
  /\ forall rest, pad4 n rest = String a (String b (String c (String d rest))).
Proof.
  unfold digits4, pad4. intros H.
  destruct (digits2 a b) as [x|] eqn:Ea; [|discriminate].
  destruct (digits2 c d) as [y|] eqn:Eb; [|discriminate].
  assert (En : n = 100 * x + y) by congruence. subst n. clear H.
  apply digits2_spec in Ea, Eb. destruct Ea as [Hx Ex], Eb as [Hy Ey].
  assert (E1 : (100 * x + y) / 100 = x)
    by (symmetry; apply (Z.div_unique _ 100 x y); lia).
  assert (E2 : (100 * x + y) mod 100 = y)
    by (symmetry; apply (Z.mod_unique _ 100 x y); lia).
  rewrite E1, E2. split; [lia|]. intros rest. now rewrite Ex, Ey.
Qed.

Lemma digits4_pad4 (n : Z) :
  0 <= n <= 9999 ->
  digits4 (digit_char (n / 100 / 10 mod 10)) (digit_char (n / 100 mod 10))
          (digit_char (n mod 100 / 10 mod 10)) (digit_char (n mod 100 mod 10)) = Some n.
Proof.
  intros H. unfold digits4.
  assert (Hd : n = 100 * (n / 100) + n mod 100) by (apply Z.div_mod; lia).
  assert (Hr : 0 <= n mod 100 < 100) by (apply Z.mod_pos_bound; lia).
  rewrite !digits2_pad2 by lia.
  f_equal. lia.
Qed.

Lemma days_in_month_bound (y m : Z) : 28 <= days_in_month y m <= 31.
Proof.
  unfold days_in_month.
  destruct (m =? 2); [destruct (is_leap y); lia|].
  destruct ((m =? 4) || (m =? 6) || (m =? 9) || (m =? 11)); lia.
Qed.

Lemma check_date_args_bounds (y m d : Z) :
  check_date_args y m d = true -> 1 <= y <= 9999 /\ 1 <= m <= 12 /\ 1 <= d <= 31.
Proof.
  unfold check_date_args. rewrite !andb_true_iff, !Z.leb_le.
  pose proof (days_in_month_bound y m). lia.
Qed.

Lemma fromisoformat_cons (y1 y2 y3 y4 h1 m1 m2 h2 d1 d2 : ascii) :
  fromisoformat
    (String y1 (String y2 (String y3 (String y4 (String h1
    (String m1 (String m2 (String h2 (String d1 (String d2 EmptyString)))))))))) =
  if Ascii.eqb h1 "-" && Ascii.eqb h2 "-" then
    match digits4 y1 y2 y3 y4, digits2 m1 m2, digits2 d1 d2 with
    | Some y, Some m, Some d => new_date y m d
    | _, _, _ => None
    end
  else None.
Proof. reflexivity. Qed.

(** Every date prints to a string that parses back to it. *)
Theorem fromisoformat_isoformat (d : date) :
  valid_date d = true -> fromisoformat (isoformat d) = Some d.
Proof.
  destruct d as [y m a]. unfold valid_date. cbn [year month day]. intros H.
  pose proof (check_date_args_bounds _ _ _ H) as [Hy [Hm Ha]].
  unfold isoformat, pad4, pad2. cbn [year month day].
  rewrite fromisoformat_cons. cbn [Ascii.eqb Bool.eqb andb].
  rewrite digits4_pad4, !digits2_pad2 by lia.
  unfold new_date. now rewrite H.
Qed.

(** Every string that parses is the printed form of the date it gives,
    and that date passed the constructor's range check. *)
Theorem isoformat_fromisoformat (s : string) (d : date) :
  fromisoformat s = Some d -> isoformat d = s /\ valid_date d = true.
Proof.
  intros H.
  do 10 (destruct s as [|? s]; [discriminate H|]).
  destruct s; [|discriminate H].
  rewrite fromisoformat_cons in H.
  destruct (Ascii.eqb a3 "-") eqn:E1; [|discriminate H].
  destruct (Ascii.eqb a6 "-") eqn:E2; [|discriminate H].
  apply Ascii.eqb_eq in E1, E2. subst. simpl in H.
  destruct (digits4 a a0 a1 a2) as [y|] eqn:Ey; [|discriminate H].
  destruct (digits2 a4 a5) as [m|] eqn:Em; [|discriminate H].
  destruct (digits2 a7 a8) as [x|] eqn:Ex; [|discriminate H].
  unfold new_date in H.
  destruct (check_date_args y m x) eqn:V; [|discriminate H].
  injection H as <-.
  apply digits4_spec in Ey. apply digits2_spec in Em, Ex.
  destruct Ey as [_ Ey], Em as [_ Em], Ex as [_ Ex].
  split; [|exact V].
  unfold isoformat. cbn [year month day].
  now rewrite Ey, Em, Ex.
Qed.

Lemma fromisoformat_valid (s : string) (d : date) :
  fromisoformat s = Some d -> valid_date d = true.
Proof. intros H. now apply isoformat_fromisoformat in H. Qed.

(** ** The validators *)

Lemma employee_new_valid (a b c d : string) (x : EmployeeCreate.t) :
  EmployeeCreate.new a b c d = Valid x <->
  nonempty (strip a) = true /\ nonempty (strip b) = true
  /\ fullmatch pattern (lower (strip c)) = true /\ nonempty (strip d) = true
  /\ x = EmployeeCreate.Build (strip a) (strip b) (lower (strip c)) (strip d).
Proof.
  unfold EmployeeCreate.new, EmployeeCreate.validate_employee_id,
    EmployeeCreate.validate_full_name, EmployeeCreate.validate_email,
    EmployeeCreate.validate_department.
  rewrite re_match_normalised.
  destruct (nonempty (strip a)), (nonempty (strip b)),
    (fullmatch pattern (lower (strip c))), (nonempty (strip d)); simpl;
    split; try discriminate; try (intros (? & ? & ? & ? & ?); discriminate).
  - intros H. injection H as <-. auto.
  - intros (_ & _ & _ & _ & ->). reflexivity.
Qed.

(** Validated employee fields validate to themselves. *)
Lemma employee_validate_idem (raw data : EmployeeCreate.t) :
  EmployeeCreate.validate raw = Valid data -> EmployeeCreate.validate data = Valid data.
Proof.
  unfold EmployeeCreate.validate. intros H.
  apply employee_new_valid in H. destruct H as (Ha & Hb & Hc & Hd & ->).
  apply employee_new_valid. cbn [EmployeeCreate.employee_id EmployeeCreate.full_name
    EmployeeCreate.email EmployeeCreate.department].
  rewrite !strip_idem, lower_strip_idem. auto.
Qed.

Lemma attendance_new_valid (a d s : string) (x : AttendanceCreate.t) :
  AttendanceCreate.new a d s = Valid x <->
  nonempty (strip a) = true /\ (exists dt, fromisoformat d = Some dt)
  /\ (s = "Present" \/ s = "Absent")
  /\ x = AttendanceCreate.Build (strip a) d s.
Proof.
  unfold AttendanceCreate.new, AttendanceCreate.validate_employee_id,
    AttendanceCreate.validate_date, AttendanceCreate.validate_status.
  assert (Hs : String.eqb s "Present" || String.eqb s "Absent" = true
               <-> s = "Present" \/ s = "Absent")
    by (rewrite orb_true_iff, !String.eqb_eq; reflexivity).
  destruct (nonempty (strip a)), (fromisoformat d) as [dt|],
    (String.eqb s "Present" || String.eqb s "Absent"); simpl;
    split; try discriminate;
    try (intros (? & [? ?] & ? & ?); try discriminate;
         match goal with H : _ \/ _ |- _ => apply Hs in H; discriminate end).
  - intros H. injection H as <-. repeat split; eauto. now apply Hs.
  - intros (_ & _ & _ & ->). reflexivity.
Qed.

Lemma validate_status_valid (s : string) :
  AttendanceCreate.validate_status s = Valid s <-> s = "Present" \/ s = "Absent".
Proof.
  unfold AttendanceCreate.validate_status.
  rewrite <- !String.eqb_eq, <- orb_true_iff.
  destruct (String.eqb s "Present" || String.eqb s "Absent"); split;
    try reflexivity; discriminate.
Qed.

(** The record a handler builds from a valid employee row and a valid
    attendance row passes its validators unchanged. *)
Lemma attendance_record_new (e : EmployeeModel.t) (a : AttendanceModel.t) :
  employee_valid e -> attendance_valid a ->
  AttendanceRecord.new (EmployeeModel.employee_id e)
                       (isoformat (AttendanceModel.date a)) (AttendanceModel.status a)
  = Valid (record_of (EmployeeModel.employee_id e) a).
Proof.
  intros He [Hd Hs]. apply attendance_new_valid.
  unfold employee_valid, to_schema in He. apply employee_new_valid in He.
  destruct He as (Hn & _ & _ & _ & He).
  unfold row_schema in He. injection He as E1 _ _ _.
  rewrite <- E1 in Hn |- *. split; [exact Hn|].
  split; [exists (AttendanceModel.date a); now apply fromisoformat_isoformat|].
  split; [now apply validate_status_valid | reflexivity].
Qed.

(** ** Lists: unique columns and [first()] *)

Section Lists.

Context {A B : Type}.
Variables (f : A -> B) (p : A -> bool).

Lemma NoDup_snoc (l : list B) (x : B) :
  NoDup l -> ~ In x l -> NoDup (l ++ [x]).
Proof.
  induction l as [|y l IH]; simpl; intros Hl Hx.
  - constructor; [intros [] | constructor].
  - apply NoDup_cons_iff in Hl. destruct Hl as [Hy Hl].
    constructor.
    + rewrite in_app_iff. simpl. intros [H|[H|[]]]; [now apply Hy|].
      apply Hx. now left.
    + apply IH; [assumption|]. intros H. apply Hx. now right.
Qed.

Lemma NoDup_map_filter (l : list A) :
  NoDup (map f l) -> NoDup (map f (filter p l)).
Proof.
  induction l as [|x l IH]; simpl; intros H; [constructor|].
  apply NoDup_cons_iff in H. destruct H as [Hx Hl].
  destruct (p x); simpl; [|now apply IH].
  constructor; [|now apply IH].
  intros H. apply Hx. apply in_map_iff in H. destruct H as [y [E Hy]].
  apply filter_In in Hy. apply in_map_iff. exists y. tauto.
Qed.

Lemma NoDup_map_inj (l : list A) (x y : A) :
  NoDup (map f l) -> In x l -> In y l -> f x = f y -> x = y.
Proof.
  induction l as [|z l IH]; simpl; intros H Hx Hy E; [contradiction|].
  apply NoDup_cons_iff in H. destruct H as [Hz Hl].
  destruct Hx as [->|Hx], Hy as [->|Hy]; auto.
  - exfalso. apply Hz. rewrite E. now apply in_map.
  - exfalso. apply Hz. rewrite <- E. now apply in_map.
Qed.

Lemma find_none_iff (l : list A) :
  find p l = None <-> forall x, In x l -> p x = false.
Proof.
  split; [apply find_none|].
  induction l as [|x l IH]; simpl; intros H; [reflexivity|].
  rewrite (H x) by now left. apply IH. intros y Hy. apply H. now right.
Qed.

Lemma existsb_false_iff (l : list A) :
  existsb p l = false <-> forall x, In x l -> p x = false.
Proof.
  induction l as [|x l IH]; simpl.
  - split; [intros _ x [] | reflexivity].
  - rewrite orb_false_iff, IH. split.
    + intros [Hx Hl] y [<-|Hy]; auto.
    + intros H. split; [apply H; now left | intros y Hy; apply H; now right].
Qed.

Lemma existsb_find (l : list A) : existsb p l = false <-> find p l = None.
Proof. now rewrite existsb_false_iff, find_none_iff. Qed.

(** With a unique column, [first()] finds the one row that matches. *)
Lemma find_unique (l : list A) (x : A) :
  NoDup (map f l) -> In x l -> p x = true ->
  (forall y, In y l -> p y = true -> f y = f x) ->
  find p l = Some x.
Proof.
  intros Hn Hx Hp Hf.
  destruct (find p l) as [y|] eqn:E.
  - apply find_some in E. destruct E as [Hy Hpy].
    f_equal. apply (NoDup_map_inj l); auto.
  - rewrite (find_none _ _ E x Hx) in Hp. discriminate.
Qed.

Lemma filter_none (l : list A) :
  (forall x, In x l -> p x = false) -> filter p l = [].
Proof.
  induction l as [|x l IH]; simpl; intros H; [reflexivity|].
  rewrite (H x) by now left. apply IH. intros y Hy. apply H. now right.
Qed.

Lemma filter_all (l : list A) :
  (forall x, In x l -> p x = true) -> filter p l = l.
Proof.
  induction l as [|x l IH]; simpl; intros H; [reflexivity|].
  rewrite (H x) by now left. f_equal. apply IH. intros y Hy. apply H. now right.
Qed.

(** With a unique column, the rows that match one value of it are one
    row at most: the row itself when it is in the list. *)
Lemma filter_unique (l : list A) (x : A) :
  NoDup (map f l) -> In x l ->
  (forall y, In y l -> p y = true <-> f y = f x) ->
  filter p l = [x].
Proof.
  induction l as [|z l IH]; simpl; intros Hn Hx Hp; [contradiction|].
  apply NoDup_cons_iff in Hn. destruct Hn as [Hz Hl].
  destruct Hx as [->|Hx].
  - rewrite (proj2 (Hp x (or_introl eq_refl)) eq_refl).
    f_equal. apply filter_none. intros y Hy.
    destruct (p y) eqn:E; [|reflexivity].
    exfalso. apply Hz. rewrite <- (proj1 (Hp y (or_intror Hy)) E).
    now apply in_map.
  - destruct (p z) eqn:E.
    + exfalso. apply Hz. rewrite (proj1 (Hp z (or_introl eq_refl)) E).
      now apply in_map.
    + apply IH; auto.
Qed.

End Lists.

Lemma construct_all_map {A B : Type} (f : A -> option B) (g : A -> B) (l : list A) :
  (forall x, In x l -> f x = Some (g x)) -> construct_all f l = Some (map g l).
Proof.
  induction l as [|x l IH]; simpl; intros H; [reflexivity|].
  rewrite (H x) by now left. rewrite IH; [reflexivity|].
  intros y Hy. apply H. now right.
Qed.

(** ** The constraints hold in every reachable session *)

Lemma consistent_empty : consistent empty_db.
Proof. split; simpl; constructor. Qed.

Lemma fresh_employee_pk (db : Session) :
  consistent db -> ~ In (employees_id_seq db) (map EmployeeModel.id (employees db)).
Proof.
  intros C H. apply in_map_iff in H. destruct H as [e [E He]].
  pose proof (proj1 (Forall_forall _ _) (seq_employees db C) e He) as L.
  simpl in L. lia.
Qed.

Lemma fresh_attendance_pk (db : Session) :
  consistent db -> ~ In (attendance_id_seq db) (map AttendanceModel.id (attendance db)).
Proof.
  intros C H. apply in_map_iff in H. destruct H as [a [E Ha]].
  pose proof (proj1 (Forall_forall _ _) (seq_attendance db C) a Ha) as L.
  simpl in L. lia.
Qed.

Lemma consistent_insert_employee (data : EmployeeCreate.t) (db db' : Session) (pk : Z) :
  consistent db -> EmployeeCreate.validate data = Valid data ->
  insert_employee data db = Some (pk, db') -> consistent db'.
Proof.
  intros C V. unfold insert_employee.
  destruct (existsb _ (employees db) || existsb _ (employees db)) eqn:E; [discriminate|].
  intros H. injection H as <- <-.
  apply orb_false_iff in E. destruct E as [E1 E2].
  rewrite existsb_false_iff in E1, E2.
  pose proof (fresh_employee_pk db C) as F.
  destruct C as [C1 C2 C3 C4 C5 C6 C7 C8 C9 C10].
  split; cbn [employees attendance employees_id_seq attendance_id_seq];
    rewrite ?map_app; simpl; auto.
  - now apply NoDup_snoc.
  - apply Forall_app. split.
    + eapply Forall_impl; [|exact C2]. simpl. intros; lia.
    + constructor; [simpl; lia | constructor].
  - apply NoDup_snoc; [assumption|]. intros H.
    apply in_map_iff in H. destruct H as [e [Ee He]].
    specialize (E1 e He). simpl in E1. rewrite Ee, String.eqb_refl in E1. discriminate.
  - apply NoDup_snoc; [assumption|]. intros H.
    apply in_map_iff in H. destruct H as [e [Ee He]].
    specialize (E2 e He). simpl in E2. rewrite Ee, String.eqb_refl in E2. discriminate.
  - eapply Forall_impl; [|exact C7]. simpl. intros a Ha.
    apply in_app_iff. now left.
  - apply Forall_app. split; [assumption|].
    constructor; [|constructor].
    destruct data as [a b c d]. exact V.
Qed.

Lemma Forall_filter_keep {A : Type} (P : A -> Prop) (p : A -> bool) (l : list A) :
  Forall P l -> Forall P (filter p l).
Proof.
  rewrite !Forall_forall. intros H x Hx. apply filter_In in Hx. now apply H.
Qed.

Lemma consistent_delete (e : EmployeeModel.t) (db : Session) :
  consistent db -> consistent (delete_cascade e db).
Proof.
  intros [C1 C2 C3 C4 C5 C6 C7 C8 C9 C10].
  split; cbn [delete_cascade employees attendance employees_id_seq attendance_id_seq];
    try (now apply NoDup_map_filter); try (now apply Forall_filter_keep).
  apply Forall_forall. intros a Ha. apply filter_In in Ha. destruct Ha as [Ha Hp].
  pose proof (proj1 (Forall_forall _ _) C7 _ Ha) as Hq.
  simpl in Hq. apply in_map_iff in Hq. destruct Hq as [e' [E He']].
  apply in_map_iff. exists e'. split; [assumption|].
  apply filter_In. split; [assumption|]. now rewrite E.
Qed.

Lemma consistent_insert_attendance (k : Z) (d : date) (s : string)
    (db db' : Session) (pk : Z) :
  consistent db -> valid_date d = true ->
  AttendanceCreate.validate_status s = Valid s ->
  insert_attendance k d s db = Some (pk, db') -> consistent db'.
Proof.
  intros C Vd Vs. unfold insert_attendance.
  destruct (existsb (same_key k d) (attendance db)) eqn:E1; [discriminate|].
  destruct (existsb _ (employees db)) eqn:E2; [|discriminate].
  simpl. intros H. injection H as <- <-.
  rewrite existsb_false_iff in E1.
  apply existsb_exists in E2. destruct E2 as [e [He Ek]]. apply Z.eqb_eq in Ek.
  pose proof (fresh_attendance_pk db C) as F.
  destruct C as [C1 C2 C3 C4 C5 C6 C7 C8 C9 C10].
  split; cbn [employees attendance employees_id_seq attendance_id_seq];
    rewrite ?map_app; simpl; auto.
  - now apply NoDup_snoc.
  - apply Forall_app. split.
    + eapply Forall_impl; [|exact C6]. simpl. intros; lia.
    + constructor; [simpl; lia | constructor].
  - apply Forall_app. split; [assumption|].
    constructor; [|constructor]. simpl. apply in_map_iff. now exists e.
  - apply NoDup_snoc; [assumption|]. intros H.
    apply in_map_iff in H. destruct H as [a [Ea Ha]].
    specialize (E1 a Ha). unfold key in Ea. injection Ea as Ek' Ed.
    unfold same_key in E1. rewrite Ek', Ed, Z.eqb_refl, date_eqb_refl in E1.
    discriminate.
  - apply Forall_app. split; [assumption|].
    constructor; [|constructor]. split; assumption.
Qed.

Lemma map_update_status {B : Type} (g : AttendanceModel.t -> B) (pk : Z) (s : string)
    (l : list AttendanceModel.t) :
  (forall a, g (AttendanceModel.with_status s a) = g a) ->
  map g (map (fun a => if AttendanceModel.id a =? pk
                       then AttendanceModel.with_status s a else a) l) = map g l.
Proof.
  intros H. rewrite map_map. apply map_ext. intros a.
  destruct (AttendanceModel.id a =? pk); [apply H | reflexivity].
Qed.

Lemma consistent_update_status (pk : Z) (s : string) (db : Session) :
  consistent db -> AttendanceCreate.validate_status s = Valid s ->
  consistent (update_status pk s db).
Proof.
  intros [C1 C2 C3 C4 C5 C6 C7 C8 C9 C10] Vs.
  split; cbn [update_status employees attendance employees_id_seq attendance_id_seq];
    auto; try (rewrite map_update_status; [assumption | reflexivity]).
  - apply Forall_forall. intros a Ha. apply in_map_iff in Ha.
    destruct Ha as [a0 [<- Ha0]].
    pose proof (proj1 (Forall_forall _ _) C6 _ Ha0) as L. simpl in L.
    now destruct (AttendanceModel.id a0 =? pk).
  - apply Forall_forall. intros a Ha. apply in_map_iff in Ha.
    destruct Ha as [a0 [<- Ha0]].
    pose proof (proj1 (Forall_forall _ _) C7 _ Ha0) as L. simpl in L.
    now destruct (AttendanceModel.id a0 =? pk).
  - apply Forall_forall. intros a Ha. apply in_map_iff in Ha.
    destruct Ha as [a0 [<- Ha0]].
    pose proof (proj1 (Forall_forall _ _) C10 _ Ha0) as [L1 L2].
    destruct (AttendanceModel.id a0 =? pk); split; assumption.
Qed.

Lemma to_schema_employee_row (pk : Z) (data : EmployeeCreate.t) :
  to_schema (employee_row pk data) = EmployeeCreate.validate data.
Proof. reflexivity. Qed.

Lemma row_schema_employee_row (pk : Z) (data : EmployeeCreate.t) :
  row_schema (employee_row pk data) = data.
Proof. now destruct data. Qed.

Lemma consistent_create_employee (raw data : EmployeeCreate.t) (db : Session) :
  consistent db -> EmployeeCreate.validate raw = Valid data ->
  consistent (snd (create_employee data db)).
Proof.
  intros C V. apply employee_validate_idem in V. unfold create_employee.
  destruct (find _ (employees db)); [exact C|].
  destruct (find _ (employees db)); [exact C|].
  destruct (insert_employee data db) as [[pk db']|] eqn:E; [|exact C].
  apply (consistent_insert_employee data db db' pk C V) in E.
  now destruct (refresh_employee pk db').
Qed.

Lemma consistent_mark_attendance (raw data : AttendanceCreate.t) (db : Session) :
  consistent db -> AttendanceCreate.validate raw = Valid data ->
  consistent (snd (mark_attendance data db)).
Proof.
  intros C V. unfold AttendanceCreate.validate in V.
  apply attendance_new_valid in V. destruct V as (_ & _ & Vs & ->).
  apply validate_status_valid in Vs.
  unfold mark_attendance. cbn [AttendanceCreate.employee_id AttendanceCreate.date
    AttendanceCreate.status].
  destruct (find _ (employees db)) as [e|]; [|exact C].
  destruct (fromisoformat (AttendanceCreate.date raw)) as [d|] eqn:Ed; [|exact C].
  apply fromisoformat_valid in Ed.
  destruct (find (same_key (EmployeeModel.id e) d) (attendance db)) as [r|].
  - pose proof (consistent_update_status (AttendanceModel.id r)
                  (AttendanceCreate.status raw) db C Vs) as C'.
    now destruct (refresh_attendance _ _).
  - destruct (insert_attendance _ _ _ db) as [[pk db']|] eqn:E; [|exact C].
    apply (consistent_insert_attendance _ _ _ db db' pk C Ed Vs) in E.
    now destruct (refresh_attendance pk db').
Qed.

Lemma snd_list_attendance (employee_id date : option string) (db : Session) :
  snd (list_attendance employee_id date db) = db.
Proof.
  unfold list_attendance.
  destruct (match date with
            | Some v => if nonempty v then nth_error (split "T" v) 0 else Some v
            | None => Some EmptyString
            end); [|reflexivity].
  now destruct (construct_all _ _).
Qed.

Lemma consistent_step (r : request) (db : Session) :
  consistent db -> consistent (step r db).
Proof.
  intros C. destruct r as [| |body|v|v|v d|body]; simpl.
  - exact C.
  - unfold list_employees. now destruct (construct_all _ _).
  - unfold post_employees.
    destruct (EmployeeCreate.validate body) as [data|] eqn:V; [|exact C].
    now apply (consistent_create_employee body).
  - unfold get_employee. now destruct (find _ _).
  - unfold delete_employee. destruct (find _ _); [|exact C].
    now apply consistent_delete.
  - now rewrite snd_list_attendance.
  - unfold post_attendance.
    destruct (AttendanceCreate.validate body) as [data|] eqn:V; [|exact C].
    now apply (consistent_mark_attendance body).
Qed.

Theorem reachable_consistent (db : Session) : reachable db -> consistent db.
Proof.
  induction 1 as [|r db _ IH]; [apply consistent_empty | now apply consistent_step].
Qed.

Lemma reachable_run (rs : list request) (db : Session) :
  reachable db -> reachable (run rs db).
Proof.
  revert db. induction rs as [|r rs IH]; simpl; intros db H; [exact H|].
  apply IH. now constructor.
Qed.

(** ** Employees *)

Section Employees.

Variable db : Session.
Hypothesis C : consistent db.

Lemma find_employee (e : EmployeeModel.t) :
  In e (employees db) ->
  find (fun x => String.eqb (EmployeeModel.employee_id x) (EmployeeModel.employee_id e))
       (employees db) = Some e.
Proof.
  intros He. apply (find_unique EmployeeModel.employee_id).
  - apply (uq_employee_id db C).
  - exact He.
  - apply String.eqb_refl.
  - intros y _ H. now apply String.eqb_eq in H.
Qed.

Lemma find_employee_pk (e : EmployeeModel.t) :
  In e (employees db) ->
  find (fun x => EmployeeModel.id x =? EmployeeModel.id e) (employees db) = Some e.
Proof.
  intros He. apply (find_unique EmployeeModel.id).
  - apply (pk_employees db C).
  - exact He.
  - apply Z.eqb_refl.
  - intros y _ H. now apply Z.eqb_eq in H.
Qed.

Lemma employee_row_valid (e : EmployeeModel.t) :
  In e (employees db) -> to_schema e = Valid (row_schema e).
Proof. intros He. exact (proj1 (Forall_forall _ _) (rows_employees db C) e He). Qed.

Lemma get_employee_found (e : EmployeeModel.t) :
  In e (employees db) ->
  get_employee (EmployeeModel.employee_id e) db = (Response 200 (row_schema e), db).
Proof.
  intros He. unfold get_employee.
  now rewrite (find_employee e He), (employee_row_valid e He).
Qed.

Lemma list_employees_all :
  list_employees db = (Response 200 (map row_schema (employees db)), db).
Proof.
  unfold list_employees.
  rewrite (construct_all_map _ row_schema); [reflexivity|].
  intros e He. now rewrite (employee_row_valid e He).
Qed.

End Employees.

Lemma find_employee_none (db : Session) (v : string) :
  find (fun x => String.eqb (EmployeeModel.employee_id x) v) (employees db) = None
  <-> forall e, In e (employees db) -> EmployeeModel.employee_id e <> v.
Proof.
  rewrite find_none_iff. split; intros H e He.
  - intros E. specialize (H e He). simpl in H.
    rewrite E, String.eqb_refl in H. discriminate.
  - apply String.eqb_neq. now apply H.
Qed.

Lemma find_email_none (db : Session) (v : string) :
  find (fun x => String.eqb (EmployeeModel.email x) v) (employees db) = None
  <-> forall e, In e (employees db) -> EmployeeModel.email e <> v.
Proof.
  rewrite find_none_iff. split; intros H e He.
  - intros E. specialize (H e He). simpl in H.
    rewrite E, String.eqb_refl in H. discriminate.
  - apply String.eqb_neq. now apply H.
Qed.

Lemma get_employee_missing (db : Session) (v : string) :
  (forall e, In e (employees db) -> EmployeeModel.employee_id e <> v) ->
  get_employee v db = (HTTPException 404 ("Employee '" ++ v ++ "' not found"), db).
Proof.
  intros H. apply find_employee_none in H. unfold get_employee. now rewrite H.
Qed.

(** The session after a successful [create_employee]. *)
Lemma create_employee_inserts (data : EmployeeCreate.t) (db : Session) :
  consistent db -> EmployeeCreate.validate data = Valid data ->
  (forall e, In e (employees db) ->
             EmployeeModel.employee_id e <> EmployeeCreate.employee_id data) ->
  (forall e, In e (employees db) ->
             EmployeeModel.email e <> EmployeeCreate.email data) ->
  create_employee data db =
  (Response 201 data,
   mkSession (employees db ++ [employee_row (employees_id_seq db) data])
             (attendance db) (employees_id_seq db + 1) (attendance_id_seq db)).
Proof.
  intros C V Hid Hmail.
  apply find_employee_none in Hid. apply find_email_none in Hmail.
  unfold create_employee. rewrite Hid, Hmail.
  destruct (insert_employee data db) as [[pk db']|] eqn:E.
  - pose proof (consistent_insert_employee data db db' pk C V E) as C'.
    unfold insert_employee in E.
    destruct (existsb _ (employees db) || existsb _ (employees db)); [discriminate|].
    injection E as <- <-.
    unfold refresh_employee.
    pose proof (find_employee_pk _ C' (employee_row (employees_id_seq db) data)) as F.
    cbn [employees employee_row EmployeeModel.id] in F.
    cbn [employees]. rewrite F.
    + now rewrite to_schema_employee_row, V.
    + apply in_app_iff. right. now left.
  - exfalso. unfold insert_employee in E.
    apply existsb_find in Hid, Hmail.
    rewrite Hid, Hmail in E. discriminate.
Qed.

(** C3. Creating an employee whose fields passed validation, in a
    reachable session: when a stored employee has the same external
    identifier the request fails with 409 and a detail that names the
    identifier; otherwise, when a stored employee has the same normalised
    e-mail address, it fails with 409 and a detail that names the address;
    otherwise the employee is inserted under the next primary key and the
    created representation comes back with 201.  On either conflict the
    session is the one before the call. *)
Theorem create_employee_conflicts (raw data : EmployeeCreate.t) (db : Session) :
  reachable db -> EmployeeCreate.validate raw = Valid data ->
  ((exists e, In e (employees db)
              /\ EmployeeModel.employee_id e = EmployeeCreate.employee_id data) ->
   create_employee data db =
   (HTTPException 409
      ("Employee with ID '" ++ EmployeeCreate.employee_id data ++ "' already exists"),
    db))
  /\ ((forall e, In e (employees db) ->
                 EmployeeModel.employee_id e <> EmployeeCreate.employee_id data) ->
      (exists e, In e (employees db)
                 /\ EmployeeModel.email e = EmployeeCreate.email data) ->
      create_employee data db =
      (HTTPException 409
         ("Email '" ++ EmployeeCreate.email data ++ "' is already registered"),
       db))
  /\ ((forall e, In e (employees db) ->
                 EmployeeModel.employee_id e <> EmployeeCreate.employee_id data) ->
      (forall e, In e (employees db) ->
                 EmployeeModel.email e <> EmployeeCreate.email data) ->
      create_employee data db =
      (Response 201 data,
       mkSession (employees db ++ [employee_row (employees_id_seq db) data])
                 (attendance db) (employees_id_seq db + 1) (attendance_id_seq db))).
Proof.
  intros R V. apply reachable_consistent in R. apply employee_validate_idem in V.
  split; [|split].
  - intros [e [He E]]. unfold create_employee.
    destruct (find _ (employees db)) eqn:F; [reflexivity|].
    pose proof (proj1 (find_employee_none _ _) F e He) as N. now elim N.
  - intros Hid [e [He E]]. apply find_employee_none in Hid.
    unfold create_employee. rewrite Hid. clear Hid.
    destruct (find _ (employees db)) eqn:F; [reflexivity|].
    pose proof (proj1 (find_email_none _ _) F e He) as N. now elim N.
  - intros Hid Hmail. now apply create_employee_inserts.
Qed.

Lemma reachable_db_ann : reachable db_ann.
Proof. apply reachable_run. constructor. Qed.

Lemma reachable_db_week : reachable db_week.
Proof. apply reachable_run. constructor. Qed.

Lemma create_employee_conflicts_witness :
  EmployeeCreate.validate ann_raw = Valid ann
  /\ create_employee ann db_ann =
     (HTTPException 409 "Employee with ID 'E1' already exists", db_ann).
Proof.
  split; [reflexivity|].
  apply (proj1 (create_employee_conflicts ann_raw ann db_ann
                  reachable_db_ann eq_refl)).
  exists (employee_row 1 ann). split; [left|]; reflexivity.
Defined.

(** C6. A valid employee body whose identifier and e-mail address are not
    in a reachable session is created with 201, and get-by-id with its
    identifier then returns the same four fields: the body's, trimmed, the
    e-mail address also in lower case. *)
Theorem create_get_round_trip (raw data : EmployeeCreate.t) (db : Session) :
  reachable db -> EmployeeCreate.validate raw = Valid data ->
  (forall e, In e (employees db) ->
             EmployeeModel.employee_id e <> EmployeeCreate.employee_id data) ->
  (forall e, In e (employees db) ->
             EmployeeModel.email e <> EmployeeCreate.email data) ->
  exists db',
    post_employees raw db = (Response 201 data, db')
    /\ get_employee (EmployeeCreate.employee_id data) db' = (Response 200 data, db')
    /\ data = EmployeeCreate.Build
                (strip (EmployeeCreate.employee_id raw))
                (strip (EmployeeCreate.full_name raw))
                (lower (strip (EmployeeCreate.email raw)))
                (strip (EmployeeCreate.department raw)).
Proof.
  intros R V Hid Hmail.
  pose proof (reachable_consistent _ (reach_step (POST_employees raw) db R)) as C'.
  apply reachable_consistent in R.
  pose proof (employee_validate_idem raw data V) as V'.
  pose proof (create_employee_inserts data db R V' Hid Hmail) as E.
  cbn [step] in C'. unfold post_employees in *. rewrite V in *. rewrite E in *.
  cbn [snd] in C'. eexists. split; [reflexivity|]. split.
  - pose proof (get_employee_found _ C' (employee_row (employees_id_seq db) data)) as G.
    rewrite row_schema_employee_row in G. apply G.
    cbn [employees]. apply in_app_iff. right. now left.
  - unfold EmployeeCreate.validate in V. apply employee_new_valid in V. tauto.
Qed.

Lemma create_get_round_trip_witness :
  exists db',
    post_employees ann_raw empty_db = (Response 201 ann, db')
    /\ get_employee "E1" db' = (Response 200 ann, db')
    /\ ann = EmployeeCreate.Build (strip "  E1 ") (strip "Ann Lee ")
                                  (lower (strip " Ann@X.com")) (strip "Eng").
Proof.
  apply (create_get_round_trip ann_raw ann empty_db reach_empty eq_refl);
    intros e [].
Defined.

(** ** Listing attendance *)

Section Attendance.

Variable db : Session.
Hypothesis C : consistent db.

Lemma owner_exists (a : AttendanceModel.t) :
  In a (attendance db) ->
  exists e, In e (employees db)
            /\ EmployeeModel.id e = AttendanceModel.employee_id a
            /\ employee_of db a = Some e.
Proof.
  intros Ha.
  pose proof (proj1 (Forall_forall _ _) (fk_attendance db C) a Ha) as H.
  simpl in H. apply in_map_iff in H. destruct H as [e [E He]].
  exists e. split; [assumption|]. split; [assumption|].
  unfold employee_of. rewrite <- E. now apply find_employee_pk.
Qed.

Lemma join_row (a : AttendanceModel.t) (e : EmployeeModel.t) :
  In e (employees db) -> EmployeeModel.id e = AttendanceModel.employee_id a ->
  filter (fun x => EmployeeModel.id x =? AttendanceModel.employee_id a) (employees db)
  = [e].
Proof.
  intros He E. apply (filter_unique EmployeeModel.id).
  - apply (pk_employees db C).
  - exact He.
  - intros y _. rewrite Z.eqb_eq, E. reflexivity.
Qed.

Lemma join_filtered (q : EmployeeModel.t -> bool) (l : list AttendanceModel.t) :
  (forall a, In a l -> In a (attendance db)) ->
  map fst
    (filter (fun ae => q (snd ae))
       (flat_map
          (fun a => map (pair a)
             (filter (fun e => EmployeeModel.id e =? AttendanceModel.employee_id a)
                     (employees db))) l))
  = filter (fun a => match employee_of db a with Some e => q e | None => false end) l.
Proof.
  induction l as [|a l IH]; intros Hl; [reflexivity|].
  destruct (owner_exists a (Hl a (or_introl eq_refl))) as [e [He [E O]]].
  cbn [flat_map filter]. rewrite filter_app, map_app, (join_row a e He E), O.
  rewrite IH by (intros x Hx; apply Hl; now right).
  simpl. now destruct (q e).
Qed.

Lemma join_all (l : list AttendanceModel.t) :
  (forall a, In a l -> In a (attendance db)) ->
  map fst
    (flat_map
       (fun a => map (pair a)
          (filter (fun e => EmployeeModel.id e =? AttendanceModel.employee_id a)
                  (employees db))) l)
  = l.
Proof.
  induction l as [|a l IH]; intros Hl; [reflexivity|].
  destruct (owner_exists a (Hl a (or_introl eq_refl))) as [e [He [E O]]].
  cbn [flat_map]. rewrite map_app, (join_row a e He E).
  rewrite IH by (intros x Hx; apply Hl; now right).
  reflexivity.
Qed.

Lemma to_record_row (a : AttendanceModel.t) :
  In a (attendance db) -> to_record db a = Some (record_of (owner_id db a) a).
Proof.
  intros Ha. destruct (owner_exists a Ha) as [e [He [E O]]].
  unfold to_record, owner_id. rewrite O.
  rewrite attendance_record_new; [reflexivity | |].
  - exact (employee_row_valid db C e He).
  - exact (proj1 (Forall_forall _ _) (rows_attendance db C) a Ha).
Qed.

(** What [list_attendance] returns in a consistent session: one record
    for each row the [employee_id] filter selects, in storage order,
    whatever the [date] parameter is. *)
Lemma list_attendance_spec (employee_id date : option string) :
  list_attendance employee_id date db =
  (Response 200
     (map (fun a => record_of (owner_id db a) a)
          (filter (selected db employee_id) (attendance db))),
   db).
Proof.
  unfold list_attendance.
  assert (P : exists h,
             match date with
             | Some v => if nonempty v then nth_error (split "T" v) 0 else Some v
             | None => Some EmptyString
             end = Some h).
  { destruct date as [v|]; [|now eexists].
    destruct (nonempty v); [apply split_first | now eexists]. }
  destruct P as [h ->].
  assert (Q : map fst
                match employee_id with
                | Some v =>
                    if nonempty v
                    then filter (fun ae => String.eqb (EmployeeModel.employee_id (snd ae)) v)
                                (join_employee db)
                    else join_employee db
                | None => join_employee db
                end
              = filter (selected db employee_id) (attendance db)).
  { unfold selected, join_employee.
    destruct employee_id as [v|];
      [destruct (nonempty v)|]; try (rewrite join_all by auto; symmetry; now apply filter_all).
    rewrite (join_filtered (fun e => String.eqb (EmployeeModel.employee_id e) v)) by auto.
    reflexivity. }
  rewrite Q.
  rewrite (construct_all_map _ (fun a => record_of (owner_id db a) a)); [reflexivity|].
  intros a Ha. apply filter_In in Ha. now apply to_record_row.
Qed.

End Attendance.

(** The [date] parameter never changes the answer, in any session. *)
Lemma list_attendance_date_ignored (employee_id date : option string) (db : Session) :
  list_attendance employee_id date db = list_attendance employee_id None db.
Proof.
  unfold list_attendance.
  destruct date as [v|]; [|reflexivity].
  destruct (nonempty v); [|reflexivity].
  now destruct (split_first "T" v) as [h ->].
Qed.


Lemma owner_is_owner_id (db : Session) (v : string) (a : AttendanceModel.t) :
  owner_is db v a = true -> owner_id db a = v.
Proof.
  unfold owner_is, owner_id. destruct (employee_of db a); [|discriminate].
  apply String.eqb_eq.
Qed.

Lemma list_attendance_for (db : Session) (v : string) (date : option string) :
  consistent db -> v <> "" ->
  list_attendance (Some v) date db =
  (Response 200 (map (record_of v) (filter (owner_is db v) (attendance db))), db).
Proof.
  intros C Hv. rewrite (list_attendance_spec db C). unfold selected.
  apply nonempty_true in Hv. rewrite Hv. f_equal. f_equal.
  apply map_ext_in. intros a Ha. apply filter_In in Ha.
  now rewrite (owner_is_owner_id db v a) by tauto.
Qed.








(** C5. The date filter is read and then dropped: in any session the
    answer with a [date] parameter is the answer without it.  Asking the
    session that holds rows of 1 and 2 January 2024 for the second of them
    returns all three rows, in the order of storage. *)
Theorem list_attendance_date_not_applied :
  (forall (employee_id date : option string) (db : Session),
     list_attendance employee_id date db = list_attendance employee_id None db)
  /\ list_attendance None (Some "2024-01-02") db_week =
     (Response 200 [present "E1" "2024-01-01"; absent "E2" "2024-01-01";
                    present "E1" "2024-01-02"], db_week).
Proof.
  split; [exact list_attendance_date_ignored|].
  vm_compute. reflexivity.
Qed.

(** With both parameters absent every row is returned, each under the
    identifier of its employee. *)
Lemma list_attendance_unfiltered (db : Session) :
  reachable db ->
  list_attendance None None db =
  (Response 200 (map (fun a => record_of (owner_id db a) a) (attendance db)), db).
Proof.
  intros R. apply reachable_consistent in R.
  rewrite (list_attendance_spec db R). unfold selected.
  now rewrite filter_all.
Qed.

(** ** Deleting an employee *)

Lemma employee_id_nonempty (db : Session) (e : EmployeeModel.t) :
  consistent db -> In e (employees db) ->
  nonempty (EmployeeModel.employee_id e) = true.
Proof.
  intros C He. pose proof (employee_row_valid db C e He) as V.
  unfold to_schema in V. apply employee_new_valid in V.
  destruct V as (Hn & _ & _ & _ & E). unfold row_schema in E.
  injection E as E _ _ _. now rewrite E.
Qed.

Lemma same_employee (db : Session) (e x : EmployeeModel.t) :
  consistent db -> In e (employees db) -> In x (employees db) ->
  (EmployeeModel.id x =? EmployeeModel.id e)
  = String.eqb (EmployeeModel.employee_id x) (EmployeeModel.employee_id e).
Proof.
  intros C He Hx.
  destruct (EmployeeModel.id x =? EmployeeModel.id e) eqn:E1;
    destruct (String.eqb _ _) eqn:E2; try reflexivity; exfalso.
  - apply Z.eqb_eq in E1.
    apply (NoDup_map_inj EmployeeModel.id _ x e (pk_employees db C) Hx He) in E1.
    subst x. now rewrite String.eqb_refl in E2.
  - apply String.eqb_eq in E2.
    apply (NoDup_map_inj EmployeeModel.employee_id _ x e (uq_employee_id db C) Hx He) in E2.
    subst x. now rewrite Z.eqb_refl in E1.
Qed.

(** C4. Deleting by external identifier in a reachable session: with no
    such employee the answer is 404 naming the identifier and the session
    is unchanged; otherwise the answer is 200, the employees left are the
    others, in their order, the attendance rows left are those of the
    others, in their order, and afterwards get-by-id answers 404, the list
    of employees does not show the identifier, no attendance row refers to
    the deleted employee and listing attendance for the identifier gives
    nothing. *)
Theorem delete_employee_cascade (employee_id : string) (db : Session) :
  reachable db ->
  ((forall e, In e (employees db) -> EmployeeModel.employee_id e <> employee_id) ->
   delete_employee employee_id db =
   (HTTPException 404 ("Employee '" ++ employee_id ++ "' not found"), db))
  /\ (forall e, In e (employees db) -> EmployeeModel.employee_id e = employee_id ->
      exists db',
        delete_employee employee_id db =
        (Response 200
           [("message", "Employee '" ++ employee_id ++ "' deleted successfully")], db')
        /\ employees db' =
           filter (fun x => negb (String.eqb (EmployeeModel.employee_id x) employee_id))
                  (employees db)
        /\ attendance db' =
           filter (fun a => negb (AttendanceModel.employee_id a =? EmployeeModel.id e))
                  (attendance db)
        /\ get_employee employee_id db' =
           (HTTPException 404 ("Employee '" ++ employee_id ++ "' not found"), db')
        /\ list_employees db' = (Response 200 (map row_schema (employees db')), db')
        /\ ~ In employee_id (map Employee.employee_id (map row_schema (employees db')))
        /\ (forall a, In a (attendance db') ->
                      AttendanceModel.employee_id a <> EmployeeModel.id e)
        /\ list_attendance (Some employee_id) None db' = (Response 200 [], db')).
Proof.
  intros R. apply reachable_consistent in R. split.
  - intros H. apply find_employee_none in H. unfold delete_employee. now rewrite H.
  - intros e He <-.
    pose proof (consistent_delete e db R) as C'.
    assert (Hemp : employees (delete_cascade e db) =
                   filter (fun x => negb (String.eqb (EmployeeModel.employee_id x)
                                                    (EmployeeModel.employee_id e)))
                          (employees db)).
    { cbn [delete_cascade employees]. apply filter_ext_in. intros x Hx.
      now rewrite (same_employee db e x R He Hx). }
    assert (Hgone : forall x, In x (employees (delete_cascade e db)) ->
                      EmployeeModel.employee_id x <> EmployeeModel.employee_id e).
    { intros x Hx. rewrite Hemp in Hx. apply filter_In in Hx.
      destruct Hx as [_ Hx]. apply negb_true_iff in Hx. now apply String.eqb_neq. }
    exists (delete_cascade e db).
    split; [unfold delete_employee; now rewrite (find_employee db R e He)|].
    split; [exact Hemp|]. split; [reflexivity|].
    split; [now apply get_employee_missing|].
    split; [now apply list_employees_all|].
    split; [|split].
    + rewrite map_map. intros H. apply in_map_iff in H.
      destruct H as [x [E Hx]]. now apply (Hgone x Hx).
    + intros a Ha. cbn [delete_cascade attendance] in Ha. apply filter_In in Ha.
      destruct Ha as [_ Ha]. apply negb_true_iff in Ha. now apply Z.eqb_neq.
    + rewrite (list_attendance_spec _ C'). unfold selected.
      rewrite (employee_id_nonempty db e R He).
      rewrite filter_none; [reflexivity|].
      intros a Ha. destruct (owner_exists _ C' a Ha) as [x [Hx [_ O]]].
      unfold owner_is. rewrite O. apply String.eqb_neq. now apply Hgone.
Qed.

Lemma delete_employee_cascade_witness :
  exists db',
    delete_employee "E1" db_week =
    (Response 200 [("message", "Employee 'E1' deleted successfully")], db')
    /\ get_employee "E1" db' = (HTTPException 404 "Employee 'E1' not found", db')
    /\ (forall a, In a (attendance db') -> AttendanceModel.employee_id a <> 1)
    /\ list_attendance (Some "E1") None db' = (Response 200 [], db').
Proof.
  assert (H : In (employee_row 1 ann) (employees db_week))
    by (vm_compute; left; reflexivity).
  destruct (proj2 (delete_employee_cascade "E1" db_week reachable_db_week)
                  (employee_row 1 ann) H eq_refl)
    as (db' & H1 & _ & _ & H4 & _ & _ & H7 & H8).
  exists db'. repeat split; assumption.
Defined.

(** ** Marking attendance *)

Lemma same_key_key (k : Z) (d : date) (a : AttendanceModel.t) :
  same_key k d a = true <-> key a = (k, d).
Proof.
  unfold same_key, key. rewrite andb_true_iff, Z.eqb_eq, date_eqb_eq. split.
  - intros [-> ->]. reflexivity.
  - intros H. now injection H.
Qed.

Lemma same_row (db : Session) (r a : AttendanceModel.t) :
  consistent db -> In r (attendance db) -> In a (attendance db) ->
  (AttendanceModel.id a =? AttendanceModel.id r)
  = same_key (AttendanceModel.employee_id r) (AttendanceModel.date r) a.
Proof.
  intros C Hr Ha.
  destruct (AttendanceModel.id a =? AttendanceModel.id r) eqn:E1;
    destruct (same_key _ _ a) eqn:E2; try reflexivity; exfalso.
  - apply Z.eqb_eq in E1.
    apply (NoDup_map_inj AttendanceModel.id _ a r (pk_attendance db C) Ha Hr) in E1.
    subst a. assert (K : same_key (AttendanceModel.employee_id r)
                                  (AttendanceModel.date r) r = true)
      by now apply same_key_key.
    congruence.
  - apply same_key_key in E2. change (key a = key r) in E2.
    apply (NoDup_map_inj key _ a r (uq_employee_date db C) Ha Hr) in E2.
    subst a. now rewrite Z.eqb_refl in E1.
Qed.

Lemma refresh_updated (db : Session) (r : AttendanceModel.t) (s : string) :
  consistent db -> In r (attendance db) ->
  refresh_attendance (AttendanceModel.id r) (update_status (AttendanceModel.id r) s db)
  = Some (AttendanceModel.with_status s r).
Proof.
  intros C Hr. unfold refresh_attendance, update_status. cbn [attendance].
  apply (find_unique AttendanceModel.id).
  - rewrite map_update_status; [apply (pk_attendance db C) | reflexivity].
  - apply in_map_iff. exists r. now rewrite Z.eqb_refl.
  - apply Z.eqb_refl.
  - intros y _ H. now apply Z.eqb_eq in H.
Qed.

(** One call of [mark_attendance] for a known employee and a date that
    parses, in a session where the constraints hold. *)
Lemma mark_attendance_core (raw data : AttendanceCreate.t) (db : Session)
    (e : EmployeeModel.t) (d : date) :
  consistent db -> AttendanceCreate.validate raw = Valid data ->
  In e (employees db) ->
  EmployeeModel.employee_id e = AttendanceCreate.employee_id data ->
  fromisoformat (AttendanceCreate.date data) = Some d ->
  exists db',
    mark_attendance data db =
    (Response 201 (AttendanceRecord.Build (EmployeeModel.employee_id e) (isoformat d)
                                          (AttendanceCreate.status data)), db')
    /\ consistent db'
    /\ employees db' = employees db
    /\ ((exists r, In r (attendance db) /\ same_key (EmployeeModel.id e) d r = true) ->
        attendance db' =
        map (fun a => if same_key (EmployeeModel.id e) d a
                      then AttendanceModel.with_status (AttendanceCreate.status data) a
                      else a) (attendance db))
    /\ ((forall r, In r (attendance db) -> same_key (EmployeeModel.id e) d r = false) ->
        attendance db' =
        (attendance db ++ [AttendanceModel.Build (attendance_id_seq db) (EmployeeModel.id e)
                                                 d (AttendanceCreate.status data)])%list)
    /\ (exists r, filter (same_key (EmployeeModel.id e) d) (attendance db') = [r]
                  /\ AttendanceModel.status r = AttendanceCreate.status data).
Proof.
  intros C V He Hid Hd.
  pose proof (consistent_mark_attendance raw data db C V) as C'.
  assert (Vs : AttendanceCreate.validate_status (AttendanceCreate.status data)
               = Valid (AttendanceCreate.status data)).
  { unfold AttendanceCreate.validate in V. apply attendance_new_valid in V.
    destruct V as (_ & _ & Vs & ->). now apply validate_status_valid. }
  pose proof (fromisoformat_valid _ _ Hd) as Vd.
  pose proof (employee_row_valid db C e He) as Ve.
  destruct (find (same_key (EmployeeModel.id e) d) (attendance db)) as [r|] eqn:F.
  - (* update *)
    pose proof (find_some _ _ F) as [Hr Kr].
    pose proof (proj1 (same_key_key _ _ _) Kr) as K. unfold key in K.
    injection K as Kfk Kd.
    assert (E : mark_attendance data db =
                (Response 201 (AttendanceRecord.Build (EmployeeModel.employee_id e)
                                 (isoformat d) (AttendanceCreate.status data)),
                 update_status (AttendanceModel.id r) (AttendanceCreate.status data) db)).
    { unfold mark_attendance. rewrite <- Hid, (find_employee db C e He), Hd, F.
      rewrite (refresh_updated db r _ C Hr).
      rewrite (attendance_record_new e (AttendanceModel.with_status _ r));
        [|exact Ve|split; [cbn; now rewrite Kd | exact Vs]].
      unfold record_of. cbn. now rewrite Kd. }
    rewrite E in C'. cbn [snd] in C'.
    eexists. split; [exact E|]. split; [exact C'|].
    split; [reflexivity|].
    assert (Hmap : attendance (update_status (AttendanceModel.id r)
                                 (AttendanceCreate.status data) db) =
                   map (fun a => if same_key (EmployeeModel.id e) d a
                                 then AttendanceModel.with_status
                                        (AttendanceCreate.status data) a
                                 else a) (attendance db)).
    { cbn [update_status attendance]. apply map_ext_in. intros a Ha.
      now rewrite (same_row db r a C Hr Ha), Kfk, Kd. }
    split; [intros _; exact Hmap|]. split.
    + intros N. rewrite (N r Hr) in Kr. discriminate.
    + exists (AttendanceModel.with_status (AttendanceCreate.status data) r).
      split; [|reflexivity].
      apply (filter_unique key).
      * apply (uq_employee_date _ C').
      * rewrite Hmap. apply in_map_iff. exists r. now rewrite Kr.
      * intros y _. rewrite same_key_key. unfold key.
        cbn [AttendanceModel.with_status AttendanceModel.employee_id AttendanceModel.date].
        now rewrite Kfk, Kd.
  - (* insert *)
    assert (N : forall r, In r (attendance db) -> same_key (EmployeeModel.id e) d r = false)
      by now apply find_none.
    set (row := AttendanceModel.Build (attendance_id_seq db) (EmployeeModel.id e) d
                                      (AttendanceCreate.status data)).
    set (db' := mkSession (employees db) (attendance db ++ [row])
                          (employees_id_seq db) (attendance_id_seq db + 1)).
    assert (I : insert_attendance (EmployeeModel.id e) d (AttendanceCreate.status data) db
                = Some (attendance_id_seq db, db')).
    { unfold insert_attendance.
      rewrite (proj2 (existsb_false_iff _ _) N).
      assert (X : existsb (fun x => EmployeeModel.id x =? EmployeeModel.id e)
                          (employees db) = true)
        by (apply existsb_exists; exists e; split; [assumption | apply Z.eqb_refl]).
      now rewrite X. }
    pose proof (consistent_insert_attendance _ _ _ _ _ _ C Vd Vs I) as Ci.
    assert (Hin : In row (attendance db'))
      by (cbn [db' attendance]; apply in_app_iff; right; now left).
    assert (Rf : refresh_attendance (attendance_id_seq db) db' = Some row).
    { unfold refresh_attendance.
      apply (find_unique AttendanceModel.id).
      - apply (pk_attendance db' Ci).
      - exact Hin.
      - apply Z.eqb_refl.
      - intros y _ H. now apply Z.eqb_eq in H. }
    assert (E : mark_attendance data db =
                (Response 201 (AttendanceRecord.Build (EmployeeModel.employee_id e)
                                 (isoformat d) (AttendanceCreate.status data)), db')).
    { unfold mark_attendance. rewrite <- Hid, (find_employee db C e He), Hd, F, I, Rf.
      rewrite (attendance_record_new e row); [reflexivity | exact Ve |].
      split; [exact Vd | exact Vs]. }
    exists db'. split; [exact E|]. split; [exact Ci|]. split; [reflexivity|].
    split; [|split].
    + intros [r [Hr Kr]]. rewrite (N r Hr) in Kr. discriminate.
    + intros _. reflexivity.
    + exists row. split; [|reflexivity].
      apply (filter_unique key).
      * apply (uq_employee_date _ Ci).
      * exact Hin.
      * intros y _. now rewrite same_key_key.
Qed.

(** C1. Marking attendance, with a validated body, for an employee on
    file in a reachable session: the answer is 201 with the employee's
    external identifier, the ISO form of the date (the very string that
    was sent) and the status sent; the employees are untouched; when a row
    for the employee and date exists the attendance table is the old one
    with the status of that row replaced, and when none exists it is the
    old one with one new row at the end; either way exactly one row for
    the pair is left and it carries the status sent.  Marking the same
    pair again, with any status, answers 201 again and leaves the table as
    long as it was, with one row for the pair, carrying the later
    status. *)
Theorem mark_attendance_upsert (raw data : AttendanceCreate.t) (db : Session)
    (e : EmployeeModel.t) (d : date) :
  reachable db -> AttendanceCreate.validate raw = Valid data ->
  In e (employees db) ->
  EmployeeModel.employee_id e = AttendanceCreate.employee_id data ->
  fromisoformat (AttendanceCreate.date data) = Some d ->
  exists db',
    mark_attendance data db =
    (Response 201 (AttendanceRecord.Build (EmployeeModel.employee_id e) (isoformat d)
                                          (AttendanceCreate.status data)), db')
    /\ isoformat d = AttendanceCreate.date data
    /\ employees db' = employees db
    /\ ((exists r, In r (attendance db) /\ same_key (EmployeeModel.id e) d r = true) ->
        attendance db' =
        map (fun a => if same_key (EmployeeModel.id e) d a
                      then AttendanceModel.with_status (AttendanceCreate.status data) a
                      else a) (attendance db))
    /\ ((forall r, In r (attendance db) -> same_key (EmployeeModel.id e) d r = false) ->
        attendance db' =
        (attendance db ++ [AttendanceModel.Build (attendance_id_seq db) (EmployeeModel.id e)
                                                 d (AttendanceCreate.status data)])%list)
    /\ (exists r, filter (same_key (EmployeeModel.id e) d) (attendance db') = [r]
                  /\ AttendanceModel.status r = AttendanceCreate.status data)
    /\ (forall raw2 again : AttendanceCreate.t,
          AttendanceCreate.validate raw2 = Valid again ->
          AttendanceCreate.employee_id again = AttendanceCreate.employee_id data ->
          AttendanceCreate.date again = AttendanceCreate.date data ->
          exists r db'',
            mark_attendance again db' =
            (Response 201 (AttendanceRecord.Build (EmployeeModel.employee_id e)
                             (isoformat d) (AttendanceCreate.status again)), db'')
            /\ filter (same_key (EmployeeModel.id e) d) (attendance db'') = [r]
            /\ AttendanceModel.status r = AttendanceCreate.status again
            /\ length (attendance db'') = length (attendance db')).
Proof.
  intros R V He Hid Hd. apply reachable_consistent in R.
  destruct (mark_attendance_core raw data db e d R V He Hid Hd)
    as (db' & E & C' & Hemp & Hup & Hins & Hone).
  exists db'. split; [exact E|].
  split; [now apply isoformat_fromisoformat in Hd|].
  split; [exact Hemp|]. split; [exact Hup|]. split; [exact Hins|].
  split; [exact Hone|].
  intros raw2 again V2 Hid2 Hd2.
  rewrite <- Hemp in He. rewrite <- Hid2 in Hid. rewrite <- Hd2 in Hd.
  destruct (mark_attendance_core raw2 again db' e d C' V2 He Hid Hd)
    as (db'' & E2 & _ & _ & Hup2 & _ & [r2 [F2 S2]]).
  exists r2, db''. split; [exact E2|]. split; [exact F2|]. split; [exact S2|].
  destruct Hone as [r [F _]].
  rewrite Hup2; [apply length_map|].
  exists r. apply filter_In. rewrite F. now left.
Qed.

Lemma mark_attendance_upsert_witness :
  exists db',
    mark_attendance (present "E1" "2024-01-01") db_ann =
    (Response 201 (present "E1" "2024-01-01"), db')
    /\ exists r db'',
         mark_attendance (absent "E1" "2024-01-01") db' =
         (Response 201 (absent "E1" "2024-01-01"), db'')
         /\ filter (same_key 1 (mkdate 2024 1 1)) (attendance db'') = [r]
         /\ AttendanceModel.status r = "Absent"
         /\ length (attendance db'') = length (attendance db').
Proof.
  assert (H : In (employee_row 1 ann) (employees db_ann))
    by (vm_compute; left; reflexivity).
  destruct (mark_attendance_upsert (present "E1" "2024-01-01")
              (present "E1" "2024-01-01") db_ann (employee_row 1 ann)
              (mkdate 2024 1 1) reachable_db_ann eq_refl H eq_refl eq_refl)
    as (db' & E & _ & _ & _ & _ & _ & Again).
  exists db'. split; [exact E|].
  exact (Again (absent "E1" "2024-01-01") (absent "E1" "2024-01-01")
               eq_refl eq_refl eq_refl).
Defined.

(** C7. Marking attendance for an identifier no stored employee has, in
    any session: the handler answers 404 with a detail that names the
    identifier, and the session it hands back, employees and attendance
    alike, is the one it was given.  The same holds for the whole request
    when the body validates to that data. *)
Theorem mark_attendance_unknown_employee (data : AttendanceCreate.t) (db : Session) :
  (forall e, In e (employees db) ->
             EmployeeModel.employee_id e <> AttendanceCreate.employee_id data) ->
  mark_attendance data db =
  (HTTPException 404 ("Employee '" ++ AttendanceCreate.employee_id data ++ "' not found"),
   db)
  /\ (forall raw, AttendanceCreate.validate raw = Valid data ->
        post_attendance raw db =
        (HTTPException 404
           ("Employee '" ++ AttendanceCreate.employee_id data ++ "' not found"), db)).
Proof.
  intros H. apply find_employee_none in H.
  assert (E : mark_attendance data db =
              (HTTPException 404
                 ("Employee '" ++ AttendanceCreate.employee_id data ++ "' not found"), db))
    by (unfold mark_attendance; now rewrite H).
  split; [exact E|]. intros raw V. unfold post_attendance. now rewrite V.
Qed.

Lemma mark_attendance_unknown_employee_witness :
  mark_attendance (present "E9" "2024-01-01") db_week =
  (HTTPException 404 "Employee 'E9' not found", db_week).
Proof.
  apply (proj1 (mark_attendance_unknown_employee (present "E9" "2024-01-01") db_week
    ltac:(intros e H; vm_compute in H; destruct H as [<-|[<-|[]]]; discriminate))).
Defined.

Lemma filter_same_key_length (k : Z) (d : date) (l : list AttendanceModel.t) :
  NoDup (map key l) -> (length (filter (same_key k d) l) <= 1)%nat.
Proof.
  induction l as [|a l IH]; simpl; intros H; [lia|].
  apply NoDup_cons_iff in H. destruct H as [Ha Hl].
  destruct (same_key k d a) eqn:K; [|now apply IH].
  rewrite filter_none; [simpl; lia|].
  intros y Hy. destruct (same_key k d y) eqn:Ky; [|reflexivity].
  exfalso. apply Ha. apply same_key_key in K, Ky. rewrite K, <- Ky.
  now apply in_map.
Qed.

(** C2. In every reachable session no two attendance rows share their
    employee and date: the pairs are without repetition, so the rows of
    any one pair are one at most; and whatever request comes next, the
    session it leaves has the same property. *)
Theorem attendance_unique_per_employee_date (db : Session) :
  reachable db ->
  NoDup (map key (attendance db))
  /\ (forall (employee_pk : Z) (d : date),
        (length (filter (same_key employee_pk d) (attendance db)) <= 1)%nat)
  /\ (forall r : request, NoDup (map key (attendance (step r db)))).
Proof.
  intros R. pose proof (reachable_consistent db R) as C.
  split; [apply (uq_employee_date db C)|]. split.
  - intros k d. apply filter_same_key_length. apply (uq_employee_date db C).
  - intros r. apply uq_employee_date. apply consistent_step. exact C.
Qed.

Lemma attendance_unique_per_employee_date_witness :
  NoDup (map key (attendance db_week))
  /\ (forall (employee_pk : Z) (d : date),
        (length (filter (same_key employee_pk d) (attendance db_week)) <= 1)%nat)
  /\ (forall r : request, NoDup (map key (attendance (step r db_week)))).
Proof.
  apply (attendance_unique_per_employee_date db_week reachable_db_week).
Defined.

(** ** Validation *)










(* ================================================================== *)
(** * Part III: further properties of the handlers and the schema *)
(* ================================================================== *)

(** ** Reading employees *)

(** X1. In a reachable session [list_employees] answers 200 with one
    entry for each stored employee, in storage order, each entry the four
    columns of its row, and hands the session back as it was. *)
Theorem list_employees_lists_all (db : Session) :
  reachable db ->
  list_employees db = (Response 200 (map row_schema (employees db)), db)
  /\ forall l, fst (list_employees db) = Response 200 l ->
               length l = length (employees db).
Proof.
  intros R. apply reachable_consistent in R.
  rewrite (list_employees_all db R). split; [reflexivity|].
  intros l H. injection H as <-. apply length_map.
Qed.

Lemma list_employees_lists_all_witness :
  list_employees db_week = (Response 200 [ann; bob], db_week).
Proof.
  exact (proj1 (list_employees_lists_all db_week reachable_db_week)).
Defined.

(** X2. In a reachable session [get_employee] answers 200 exactly when
    an employee with the identifier is stored, and then with the four
    columns of that employee's row; otherwise it answers 404 with a detail
    that names the identifier.  The session is handed back as it was. *)
Theorem get_employee_lookup (employee_id : string) (db : Session) :
  reachable db ->
  (forall e, In e (employees db) -> EmployeeModel.employee_id e = employee_id ->
     get_employee employee_id db = (Response 200 (row_schema e), db))
  /\ ((forall e, In e (employees db) -> EmployeeModel.employee_id e <> employee_id) ->
      get_employee employee_id db =
      (HTTPException 404 ("Employee '" ++ employee_id ++ "' not found"), db))
  /\ (forall body, fst (get_employee employee_id db) = Response 200 body ->
        exists e, In e (employees db) /\ EmployeeModel.employee_id e = employee_id
                  /\ body = row_schema e)
  /\ snd (get_employee employee_id db) = db.
Proof.
  intros R. apply reachable_consistent in R. split; [|split; [|split]].
  - intros e He <-. now apply get_employee_found.
  - apply get_employee_missing.
  - intros body. unfold get_employee.
    destruct (find _ (employees db)) as [e|] eqn:F; [|discriminate].
    apply find_some in F. destruct F as [He Ee]. apply String.eqb_eq in Ee.
    rewrite (employee_row_valid db R e He). cbn. intros H. injection H as <-.
    now exists e.
  - unfold get_employee. now destruct (find _ (employees db)).
Qed.

Lemma get_employee_lookup_witness :
  get_employee "E2" db_week = (Response 200 bob, db_week)
  /\ get_employee "E3" db_week = (HTTPException 404 "Employee 'E3' not found", db_week).
Proof.
  destruct (get_employee_lookup "E2" db_week reachable_db_week) as (F & _).
  destruct (get_employee_lookup "E3" db_week reachable_db_week) as (_ & N & _).
  split.
  - apply (F (employee_row 2 bob)); [vm_compute; right; left|]; reflexivity.
  - apply N. intros e H. vm_compute in H. destruct H as [<-|[<-|[]]]; discriminate.
Defined.

(** ** Invariants of the employees table and of the stored values *)

(** X4. In every reachable session no two employees share their primary
    key, their external identifier or their e-mail address, and every
    primary key is below the next value of the sequence. *)
Theorem employees_unique (db : Session) :
  reachable db ->
  NoDup (map EmployeeModel.id (employees db))
  /\ NoDup (map EmployeeModel.employee_id (employees db))
  /\ NoDup (map EmployeeModel.email (employees db))
  /\ (forall e, In e (employees db) -> EmployeeModel.id e < employees_id_seq db).
Proof.
  intros R. apply reachable_consistent in R.
  split; [apply (pk_employees db R)|]. split; [apply (uq_employee_id db R)|].
  split; [apply (uq_email db R)|].
  apply Forall_forall. apply (seq_employees db R).
Qed.

Lemma employees_unique_witness :
  NoDup (map EmployeeModel.employee_id (employees db_week))
  /\ NoDup (map EmployeeModel.email (employees db_week)).
Proof.
  destruct (employees_unique db_week reachable_db_week) as (_ & H1 & H2 & _).
  now split.
Defined.

(** X5. In every reachable session every attendance row belongs to a
    stored employee: the relationship [rec.employee] is never empty, also
    after employees were deleted. *)
Theorem attendance_has_owner (db : Session) :
  reachable db ->
  forall a, In a (attendance db) ->
    exists e, In e (employees db)
              /\ EmployeeModel.id e = AttendanceModel.employee_id a
              /\ employee_of db a = Some e.
Proof.
  intros R a Ha. apply reachable_consistent in R. now apply owner_exists.
Qed.

Lemma attendance_has_owner_witness :
  exists e, In e (employees db_week)
            /\ EmployeeModel.id e = 2
            /\ employee_of db_week (AttendanceModel.Build 2 2 (mkdate 2024 1 1) "Absent")
               = Some e.
Proof.
  apply (attendance_has_owner db_week reachable_db_week
           (AttendanceModel.Build 2 2 (mkdate 2024 1 1) "Absent")).
  vm_compute. right. left. reflexivity.
Defined.

(** X6. In every reachable session the stored values are the validated
    ones: identifier, name and department of every employee are trimmed
    and not empty, the e-mail address is trimmed, in lower case and
    matches the pattern; every attendance row holds a calendar date and
    one of the two statuses. *)
Theorem stored_values_normalised (db : Session) :
  reachable db ->
  (forall e, In e (employees db) ->
     strip (EmployeeModel.employee_id e) = EmployeeModel.employee_id e
     /\ EmployeeModel.employee_id e <> ""
     /\ strip (EmployeeModel.full_name e) = EmployeeModel.full_name e
     /\ EmployeeModel.full_name e <> ""
     /\ strip (EmployeeModel.email e) = EmployeeModel.email e
     /\ lower (EmployeeModel.email e) = EmployeeModel.email e
     /\ fullmatch pattern (EmployeeModel.email e) = true
     /\ strip (EmployeeModel.department e) = EmployeeModel.department e
     /\ EmployeeModel.department e <> "")
  /\ (forall a, In a (attendance db) ->
        valid_date (AttendanceModel.date a) = true
        /\ (AttendanceModel.status a = "Present" \/ AttendanceModel.status a = "Absent")).
Proof.
  intros R. apply reachable_consistent in R. split.
  - intros e He. pose proof (employee_row_valid db R e He) as V.
    unfold to_schema in V. apply employee_new_valid in V.
    destruct V as (Ha & Hb & Hc & Hd & E). unfold row_schema in E.
    injection E as E1 E2 E3 E4.
    rewrite <- E1 in Ha. rewrite <- E2 in Hb. rewrite <- E3 in Hc. rewrite <- E4 in Hd.
    apply nonempty_true in Ha, Hb, Hd.
    assert (S3 : strip (EmployeeModel.email e) = EmployeeModel.email e)
      by (rewrite E3 at 1; rewrite strip_lower, strip_idem; now symmetry).
    assert (L3 : lower (EmployeeModel.email e) = EmployeeModel.email e)
      by (rewrite E3 at 1; rewrite lower_idem; now symmetry).
    repeat split; auto.
  - intros a Ha. destruct (proj1 (Forall_forall _ _) (rows_attendance db R) a Ha) as [Vd Vs].
    split; [exact Vd | now apply validate_status_valid].
Qed.

Lemma stored_values_normalised_witness :
  strip "E1" = "E1" /\ lower "ann@x.com" = "ann@x.com".
Proof.
  destruct (proj1 (stored_values_normalised db_week reachable_db_week)
                  (employee_row 1 ann)) as (H1 & _ & _ & _ & _ & H6 & _).
  - vm_compute. left. reflexivity.
  - split; [exact H1 | exact H6].
Defined.

(** ** Validated bodies *)

Lemma attendance_validate_idem (raw data : AttendanceCreate.t) :
  AttendanceCreate.validate raw = Valid data ->
  AttendanceCreate.validate data = Valid data.
Proof.
  unfold AttendanceCreate.validate. intros H.
  apply attendance_new_valid in H. destruct H as (Ha & Hd & Hs & ->).
  apply attendance_new_valid.
  cbn [AttendanceCreate.employee_id AttendanceCreate.date AttendanceCreate.status].
  rewrite strip_idem. auto.
Qed.

Lemma validated_date_parses (raw data : AttendanceCreate.t) :
  AttendanceCreate.validate raw = Valid data ->
  exists d, fromisoformat (AttendanceCreate.date data) = Some d.
Proof.
  unfold AttendanceCreate.validate. intros H.
  apply attendance_new_valid in H. now destruct H as (_ & Hd & _ & ->).
Qed.

(** X8. Validation is idempotent: the fields of a validated employee or
    attendance body pass the validators again and come out unchanged, so
    what a handler reads back from the tables can always be returned. *)
Theorem validators_idempotent :
  (forall raw data : EmployeeCreate.t,
     EmployeeCreate.validate raw = Valid data ->
     EmployeeCreate.validate data = Valid data)
  /\ (forall raw data : AttendanceCreate.t,
        AttendanceCreate.validate raw = Valid data ->
        AttendanceCreate.validate data = Valid data).
Proof. split; [exact employee_validate_idem | exact attendance_validate_idem]. Qed.

Lemma validators_idempotent_witness :
  EmployeeCreate.validate ann = Valid ann.
Proof. exact (proj1 validators_idempotent ann_raw ann eq_refl). Defined.

(** ** Outcomes of the two POST routes *)

Lemma find_employee_some (db : Session) (v : string) (e : EmployeeModel.t) :
  find (fun x => String.eqb (EmployeeModel.employee_id x) v) (employees db) = Some e ->
  In e (employees db) /\ EmployeeModel.employee_id e = v.
Proof.
  intros F. apply find_some in F. destruct F as [He E].
  now apply String.eqb_eq in E.
Qed.

Lemma post_employees_outcome (raw : EmployeeCreate.t) (db : Session) :
  consistent db ->
  (exists errors, post_employees raw db = (RequestValidationError errors, db))
  \/ (exists detail, post_employees raw db = (HTTPException 409 detail, db))
  \/ (exists data,
        EmployeeCreate.validate raw = Valid data
        /\ (forall e, In e (employees db) ->
                      EmployeeModel.employee_id e <> EmployeeCreate.employee_id data)
        /\ post_employees raw db =
           (Response 201 data,
            mkSession (employees db ++ [employee_row (employees_id_seq db) data])
                      (attendance db) (employees_id_seq db + 1) (attendance_id_seq db))).
Proof.
  intros C. unfold post_employees.
  destruct (EmployeeCreate.validate raw) as [data|errors] eqn:V; [|left; now exists errors].
  right.
  destruct (find (fun e => String.eqb (EmployeeModel.employee_id e)
                                      (EmployeeCreate.employee_id data)) (employees db))
    as [x|] eqn:F1.
  { left. unfold create_employee. rewrite F1. now eexists. }
  destruct (find (fun e => String.eqb (EmployeeModel.email e)
                                      (EmployeeCreate.email data)) (employees db))
    as [x|] eqn:F2.
  { left. unfold create_employee. rewrite F1, F2. now eexists. }
  right. exists data. split; [reflexivity|].
  pose proof (proj1 (find_employee_none _ _) F1) as N1.
  pose proof (proj1 (find_email_none _ _) F2) as N2.
  split; [exact N1|].
  apply create_employee_inserts; auto. now apply (employee_validate_idem raw).
Qed.

Lemma post_attendance_outcome (raw : AttendanceCreate.t) (db : Session) :
  consistent db ->
  (exists errors, post_attendance raw db = (RequestValidationError errors, db))
  \/ (exists detail, post_attendance raw db = (HTTPException 404 detail, db))
  \/ (exists data db',
        AttendanceCreate.validate raw = Valid data
        /\ post_attendance raw db = (Response 201 data, db')).
Proof.
  intros C. unfold post_attendance.
  destruct (AttendanceCreate.validate raw) as [data|errors] eqn:V; [|left; now exists errors].
  right.
  destruct (find (fun e => String.eqb (EmployeeModel.employee_id e)
                                      (AttendanceCreate.employee_id data)) (employees db))
    as [e|] eqn:F.
  - right. apply find_employee_some in F. destruct F as [He Hid].
    destruct (validated_date_parses raw data V) as [d Hd].
    destruct (mark_attendance_core raw data db e d C V He Hid Hd) as (db' & E & _).
    exists data, db'. split; [reflexivity|]. rewrite E. f_equal. f_equal.
    apply isoformat_fromisoformat in Hd. destruct Hd as [Hd _].
    rewrite Hid, Hd. now destruct data.
  - left. unfold mark_attendance. rewrite F. now eexists.
Qed.

(** X3. In a reachable session a GET request never changes the session,
    and neither does any request that is not answered with 200 or 201: a
    conflict, a missing employee or a body that fails validation leaves
    both tables and both sequences as they were. *)
Theorem failed_requests_change_nothing (r : request) (db : Session) :
  reachable db ->
  (is_get r = true -> step r db = db)
  /\ (answer r db <> 200 -> answer r db <> 201 -> step r db = db).
Proof.
  intros R. apply reachable_consistent in R.
  assert (G : is_get r = true -> step r db = db).
  { destruct r as [| |body|v|v|v d|body]; cbn [is_get step]; try discriminate; intros _.
    - reflexivity.
    - now rewrite (list_employees_all db R).
    - unfold get_employee. now destruct (find _ (employees db)).
    - apply snd_list_attendance. }
  split; [exact G|].
  destruct r as [| |body|v|v|v d|body]; try (intros _ _; now apply G);
    cbn [answer step].
  - destruct (post_employees_outcome body db R)
      as [[errors ->]|[[detail ->]|[data (_ & _ & ->)]]]; cbn; auto.
    intros _ H. now elim H.
  - unfold delete_employee. destruct (find _ (employees db)); cbn; auto.
    intros H. now elim H.
  - destruct (post_attendance_outcome body db R)
      as [[errors ->]|[[detail ->]|[data [db' (_ & ->)]]]]; cbn; auto.
    intros _ H. now elim H.
Qed.

Lemma failed_requests_change_nothing_witness :
  step (POST_employees ann_raw) db_week = db_week
  /\ step (DELETE_employee "E7") db_week = db_week.
Proof.
  split.
  - apply (proj2 (failed_requests_change_nothing (POST_employees ann_raw) db_week
                    reachable_db_week)); vm_compute; discriminate.
  - apply (proj2 (failed_requests_change_nothing (DELETE_employee "E7") db_week
                    reachable_db_week)); vm_compute; discriminate.
Defined.

(** ** Requests in sequence *)

Lemma find_filter_head {A : Type} (p : A -> bool) (l : list A) (x : A) (rest : list A) :
  filter p l = x :: rest -> find p l = Some x.
Proof.
  induction l as [|y l IH]; simpl; [discriminate|].
  destruct (p y); [intros H; now injection H as -> _ | exact IH].
Qed.

Lemma update_status_noop (db : Session) (r : AttendanceModel.t) :
  consistent db -> In r (attendance db) ->
  update_status (AttendanceModel.id r) (AttendanceModel.status r) db = db.
Proof.
  intros C Hr. destruct db as [emps atts s1 s2]. unfold update_status.
  cbn [employees attendance employees_id_seq attendance_id_seq] in *. f_equal.
  rewrite <- (map_id atts) at 2. apply map_ext_in. intros a Ha.
  destruct (AttendanceModel.id a =? AttendanceModel.id r) eqn:E; [|reflexivity].
  apply Z.eqb_eq in E.
  apply (NoDup_map_inj AttendanceModel.id atts a r (pk_attendance _ C) Ha Hr) in E.
  subst a. now destruct r.
Qed.

Lemma delete_employee_found (db : Session) (e : EmployeeModel.t) :
  consistent db -> In e (employees db) ->
  delete_employee (EmployeeModel.employee_id e) db =
  (Response 200
     [("message", "Employee '" ++ EmployeeModel.employee_id e ++ "' deleted successfully")],
   delete_cascade e db).
Proof.
  intros C He. unfold delete_employee. now rewrite (find_employee db C e He).
Qed.

Lemma delete_cascade_gone (db : Session) (e x : EmployeeModel.t) :
  consistent db -> In e (employees db) -> In x (employees (delete_cascade e db)) ->
  In x (employees db) /\ EmployeeModel.employee_id x <> EmployeeModel.employee_id e
  /\ EmployeeModel.id x <> EmployeeModel.id e.
Proof.
  intros C He Hx. cbn [delete_cascade employees] in Hx. apply filter_In in Hx.
  destruct Hx as [Hx N]. split; [exact Hx|].
  apply negb_true_iff in N.
  split; [|now apply Z.eqb_neq].
  rewrite (same_employee db e x C He Hx) in N. now apply String.eqb_neq.
Qed.

(** When a row for the employee and the date is there, [mark_attendance]
    commits an UPDATE of that row. *)
Lemma mark_attendance_existing (raw data : AttendanceCreate.t) (db : Session)
    (e : EmployeeModel.t) (d : date) (r : AttendanceModel.t) :
  consistent db -> AttendanceCreate.validate raw = Valid data ->
  In e (employees db) ->
  EmployeeModel.employee_id e = AttendanceCreate.employee_id data ->
  fromisoformat (AttendanceCreate.date data) = Some d ->
  find (same_key (EmployeeModel.id e) d) (attendance db) = Some r ->
  snd (mark_attendance data db)
  = update_status (AttendanceModel.id r) (AttendanceCreate.status data) db.
Proof.
  intros C V He Hid Hd F.
  unfold mark_attendance. rewrite <- Hid, (find_employee db C e He), Hd, F.
  pose proof (find_some _ _ F) as [Hr _].
  rewrite (refresh_updated db r _ C Hr). reflexivity.
Qed.

(** X9. Every request is idempotent on the store: in a reachable session,
    sending the same request a second time leaves the session exactly as
    the first left it.  A repeated create is refused, a repeated delete
    finds nothing, and a repeated mark rewrites the status that is already
    there. *)
Theorem requests_idempotent (r : request) (db : Session) :
  reachable db -> step r (step r db) = step r db.
Proof.
  intros R. pose proof (reachable_consistent db R) as C.
  pose proof (reachable_consistent _ (reach_step r db R)) as C1.
  destruct r as [| |body|v|v|v d|body]; cbn [step] in *.
  - reflexivity.
  - rewrite (list_employees_all db C). cbn [snd]. now rewrite (list_employees_all db C).
  - destruct (post_employees_outcome body db C)
      as [[errors E]|[[detail E]|[data (V & N & E)]]]; rewrite E; cbn [snd];
      try (now rewrite E).
    rewrite E in C1. cbn [snd] in C1.
    unfold post_employees. rewrite V. unfold create_employee.
    set (db1 := mkSession _ _ _ _) in *.
    destruct (find _ (employees db1)) eqn:F; [reflexivity|].
    exfalso.
    apply (proj1 (find_employee_none _ _) F (employee_row (employees_id_seq db) data));
      [|reflexivity].
    cbn [db1 employees]. apply in_app_iff. right. now left.
  - unfold get_employee. destruct (find _ (employees db)) eqn:F; cbn [snd]; now rewrite F.
  - unfold delete_employee at 2 3.
    destruct (find _ (employees db)) as [e|] eqn:F; cbn [snd].
    + apply find_employee_some in F. destruct F as [He <-].
      unfold delete_employee.
      destruct (find _ (employees (delete_cascade e db))) as [x|] eqn:F2; [|reflexivity].
      exfalso. apply find_employee_some in F2. destruct F2 as [Hx E].
      now apply (delete_cascade_gone db e x C He) in Hx.
    + unfold delete_employee. now rewrite F.
  - now rewrite !snd_list_attendance.
  - unfold post_attendance in *.
    destruct (AttendanceCreate.validate body) as [data|errors] eqn:V; [|reflexivity].
    destruct (find (fun e => String.eqb (EmployeeModel.employee_id e)
                                        (AttendanceCreate.employee_id data)) (employees db))
      as [e|] eqn:F.
    + apply find_employee_some in F. destruct F as [He Hid].
      destruct (validated_date_parses body data V) as [d Hd].
      destruct (mark_attendance_core body data db e d C V He Hid Hd)
        as (db1 & E & _ & Hemp & _ & _ & [r1 [F1 S1]]).
      rewrite E in *. cbn [snd] in *.
      rewrite <- Hemp in He.
      rewrite (mark_attendance_existing body data db1 e d r1 C1 V He Hid Hd
                 (find_filter_head _ _ _ _ F1)).
      rewrite <- S1. apply update_status_noop; [exact C1|].
      apply (proj1 (filter_In (same_key (EmployeeModel.id e) d) r1 (attendance db1))).
      rewrite F1. now left.
    + unfold mark_attendance at 2 3. rewrite F. cbn [snd].
      unfold mark_attendance. now rewrite F.
Qed.

Lemma requests_idempotent_witness :
  step (POST_attendance (absent "E1" "2024-01-02"))
       (step (POST_attendance (absent "E1" "2024-01-02")) db_week)
  = step (POST_attendance (absent "E1" "2024-01-02")) db_week.
Proof.
  exact (requests_idempotent (POST_attendance (absent "E1" "2024-01-02")) db_week
           reachable_db_week).
Defined.

Lemma filter_twice {A : Type} (p q : A -> bool) (l : list A) :
  filter p (filter q l) = filter (fun x => q x && p x) l.
Proof.
  induction l as [|x l IH]; simpl; [reflexivity|].
  destruct (q x); simpl; [destruct (p x)|]; now rewrite IH.
Qed.

(** X10. After an employee was created, in a reachable session, the same
    body sent again is refused with 409 naming the identifier, and a body
    with another identifier but an e-mail address that normalises to the
    same one is refused with 409 naming the address; neither changes the
    session. *)
Theorem create_twice_conflicts (raw data : EmployeeCreate.t) (db db' : Session) :
  reachable db ->
  post_employees raw db = (Response 201 data, db') ->
  post_employees raw db' =
  (HTTPException 409
     ("Employee with ID '" ++ EmployeeCreate.employee_id data ++ "' already exists"),
   db')
  /\ (forall raw2 data2 : EmployeeCreate.t,
        EmployeeCreate.validate raw2 = Valid data2 ->
        EmployeeCreate.employee_id data2 <> EmployeeCreate.employee_id data ->
        (forall e, In e (employees db) ->
           EmployeeModel.employee_id e <> EmployeeCreate.employee_id data2) ->
        EmployeeCreate.email data2 = EmployeeCreate.email data ->
        post_employees raw2 db' =
        (HTTPException 409
           ("Email '" ++ EmployeeCreate.email data ++ "' is already registered"), db')).
Proof.
  intros R H. apply reachable_consistent in R.
  destruct (post_employees_outcome raw db R)
    as [[errors E]|[[detail E]|[data0 (V & N & E)]]]; rewrite E in H; try discriminate H.
  injection H as -> <-.
  set (row := employee_row (employees_id_seq db) data).
  set (db' := mkSession _ _ _ _).
  assert (Hrow : In row (employees db'))
    by (cbn [db' employees]; apply in_app_iff; right; now left).
  split.
  - unfold post_employees. rewrite V. unfold create_employee.
    destruct (find _ (employees db')) eqn:F; [reflexivity|].
    now elim (proj1 (find_employee_none _ _) F row Hrow).
  - intros raw2 data2 V2 Hne N2 Hmail.
    unfold post_employees. rewrite V2. unfold create_employee.
    assert (F1 : find (fun e => String.eqb (EmployeeModel.employee_id e)
                                           (EmployeeCreate.employee_id data2))
                      (employees db') = None).
    { apply find_employee_none. intros e He. cbn [db' employees] in He.
      apply in_app_iff in He. destruct He as [He|[<-|[]]]; [now apply N2|].
      cbn. congruence. }
    rewrite F1, Hmail. clear F1.
    destruct (find _ (employees db')) eqn:F; [reflexivity|].
    now elim (proj1 (find_email_none _ _) F row Hrow).
Qed.

Lemma create_twice_conflicts_witness :
  post_employees ann_raw db_ann =
  (HTTPException 409 "Employee with ID 'E1' already exists", db_ann).
Proof.
  exact (proj1 (create_twice_conflicts ann_raw ann empty_db db_ann reach_empty eq_refl)).
Defined.

(** X13. With the [employee_id] parameter absent or empty, in a
    reachable session, [list_attendance] answers 200 with one record for
    each attendance row of the table, each under the external identifier
    of the employee the row belongs to: as many records as rows, in the
    order the store returns them, which the query does not fix. *)
Theorem list_attendance_unfiltered_all (db : Session) (employee_id date : option string) :
  reachable db ->
  employee_id = None \/ employee_id = Some "" ->
  exists l,
    list_attendance employee_id date db = (Response 200 l, db)
    /\ Permutation l (map (fun a => record_of (owner_id db a) a) (attendance db))
    /\ length l = length (attendance db)
    /\ (forall a, In a (attendance db) ->
          exists e, In e (employees db)
                    /\ EmployeeModel.id e = AttendanceModel.employee_id a
                    /\ owner_id db a = EmployeeModel.employee_id e).
Proof.
  intros R H. apply reachable_consistent in R.
  exists (map (fun a => record_of (owner_id db a) a) (attendance db)).
  split; [|split; [apply Permutation_refl|split; [apply length_map|]]].
  - rewrite (list_attendance_spec db R). rewrite filter_all; [reflexivity|].
    intros a _. now destruct H as [->| ->].
  - intros a Ha. destruct (owner_exists db R a Ha) as [e (He & E & O)].
    exists e. split; [exact He|]. split; [exact E|].
    unfold owner_id. now rewrite O.
Qed.

Lemma list_attendance_unfiltered_all_witness :
  exists l,
    list_attendance None (Some "2024-01-02") db_week = (Response 200 l, db_week)
    /\ length l = length (attendance db_week).
Proof.
  destruct (list_attendance_unfiltered_all db_week None (Some "2024-01-02")
              reachable_db_week (or_introl eq_refl)) as (l & E & _ & L & _).
  exists l. split; [exact E | exact L].
Defined.

Lemma owner_is_pk (db : Session) (e : EmployeeModel.t) (a : AttendanceModel.t) :
  consistent db -> In e (employees db) -> In a (attendance db) ->
  owner_is db (EmployeeModel.employee_id e) a
  = (AttendanceModel.employee_id a =? EmployeeModel.id e).
Proof.
  intros C He Ha. destruct (owner_exists db C a Ha) as [x (Hx & E & O)].
  unfold owner_is. rewrite O, <- E. symmetry. exact (same_employee db e x C He Hx).
Qed.

Lemma isoformat_eqb (d1 d2 : date) :
  valid_date d1 = true -> valid_date d2 = true ->
  String.eqb (isoformat d1) (isoformat d2) = date_eqb d1 d2.
Proof.
  intros V1 V2.
  destruct (String.eqb _ _) eqn:E1; destruct (date_eqb d1 d2) eqn:E2;
    try reflexivity; exfalso.
  - apply String.eqb_eq in E1.
    pose proof (fromisoformat_isoformat d1 V1) as P1.
    pose proof (fromisoformat_isoformat d2 V2) as P2.
    rewrite E1, P2 in P1. injection P1 as ->.
    now rewrite date_eqb_refl in E2.
  - apply date_eqb_eq in E2. subst d2. now rewrite String.eqb_refl in E1.
Qed.

(** X12. After attendance was marked for a stored employee, in a
    reachable session, listing the attendance of that employee shows, for
    the date that was marked, exactly one record, and it is the body that
    was sent: the identifier, the date and the status of the last call. *)
Theorem mark_then_list (raw data : AttendanceCreate.t) (db : Session)
    (e : EmployeeModel.t) :
  reachable db -> AttendanceCreate.validate raw = Valid data ->
  In e (employees db) ->
  EmployeeModel.employee_id e = AttendanceCreate.employee_id data ->
  exists db' body,
    post_attendance raw db = (Response 201 data, db')
    /\ list_attendance (Some (AttendanceCreate.employee_id data)) None db'
       = (Response 200 body, db')
    /\ filter (fun r => String.eqb (AttendanceRecord.date r) (AttendanceCreate.date data))
              body = [data].
Proof.
  intros R V He Hid. apply reachable_consistent in R.
  destruct (validated_date_parses raw data V) as [d Hd].
  destruct (mark_attendance_core raw data db e d R V He Hid Hd)
    as (db' & E & C' & Hemp & _ & _ & [r [F S]]).
  pose proof (isoformat_fromisoformat _ _ Hd) as [Hiso Vd].
  assert (Hdata : AttendanceRecord.Build (EmployeeModel.employee_id e) (isoformat d)
                    (AttendanceCreate.status data) = data)
    by (rewrite Hid, Hiso; now destruct data).
  rewrite Hdata in E.
  assert (Hv : AttendanceCreate.employee_id data <> "")
    by (rewrite <- Hid; apply nonempty_true; now apply (employee_id_nonempty db)).
  exists db'. eexists. split; [unfold post_attendance; now rewrite V|].
  split; [now apply list_attendance_for|].
  rewrite filter_map_swap, filter_twice.
  rewrite <- Hemp in He.
  rewrite (filter_ext_in _ (same_key (EmployeeModel.id e) d)).
  - rewrite F. cbn [map]. f_equal. unfold record_of. rewrite S.
    assert (K : same_key (EmployeeModel.id e) d r = true).
    { apply (proj1 (filter_In (same_key (EmployeeModel.id e) d) r (attendance db'))).
      rewrite F. now left. }
    apply same_key_key in K. unfold key in K. injection K as _ ->.
    now rewrite <- Hid, Hdata.
  - intros a Ha. rewrite <- Hid, (owner_is_pk db' e a C' He Ha).
    unfold same_key. f_equal. cbn [record_of AttendanceRecord.date].
    rewrite <- Hiso. apply isoformat_eqb; [|exact Vd].
    exact (proj1 (proj1 (Forall_forall _ _) (rows_attendance db' C') a Ha)).
Qed.

Lemma mark_then_list_witness :
  exists db' body,
    post_attendance (absent "E1" "2024-01-02") db_week
    = (Response 201 (absent "E1" "2024-01-02"), db')
    /\ list_attendance (Some "E1") None db' = (Response 200 body, db')
    /\ filter (fun r => String.eqb (AttendanceRecord.date r) "2024-01-02") body
       = [absent "E1" "2024-01-02"].
Proof.
  assert (H : In (employee_row 1 ann) (employees db_week))
    by (vm_compute; left; reflexivity).
  exact (mark_then_list (absent "E1" "2024-01-02") (absent "E1" "2024-01-02") db_week
           (employee_row 1 ann) reachable_db_week eq_refl H eq_refl).
Defined.

(** X14. Deleting one employee, in a reachable session, changes nothing
    for the others: get-by-id with any other identifier answers as before,
    and so does the attendance list filtered by any other non-empty
    identifier, whatever the date parameter. *)
Theorem delete_leaves_others (db : Session) (e : EmployeeModel.t)
    (other : string) (date : option string) :
  reachable db -> In e (employees db) ->
  other <> "" -> other <> EmployeeModel.employee_id e ->
  fst (get_employee other (snd (delete_employee (EmployeeModel.employee_id e) db)))
  = fst (get_employee other db)
  /\ fst (list_attendance (Some other) date
            (snd (delete_employee (EmployeeModel.employee_id e) db)))
     = fst (list_attendance (Some other) date db).
Proof.
  intros R He Hne Ho. apply reachable_consistent in R.
  pose proof (consistent_delete e db R) as C'.
  rewrite (delete_employee_found db e R He). cbn [snd].
  assert (Keep : forall x, In x (employees db) ->
                   EmployeeModel.id x <> EmployeeModel.id e ->
                   In x (employees (delete_cascade e db))).
  { intros x Hx N. cbn [delete_cascade employees]. apply filter_In. split; [exact Hx|].
    apply negb_true_iff. now apply Z.eqb_neq. }
  split.
  - destruct (find (fun x => String.eqb (EmployeeModel.employee_id x) other) (employees db))
      as [x|] eqn:F.
    + apply find_employee_some in F. destruct F as [Hx <-].
      assert (N : EmployeeModel.id x <> EmployeeModel.id e).
      { intros E. apply Ho. f_equal.
        now apply (NoDup_map_inj EmployeeModel.id _ x e (pk_employees db R)). }
      rewrite (get_employee_found db R x Hx).
      now rewrite (get_employee_found _ C' x (Keep x Hx N)).
    + pose proof (proj1 (find_employee_none _ _) F) as N.
      rewrite (get_employee_missing db other N).
      rewrite get_employee_missing; [reflexivity|].
      intros x Hx. apply N. now apply (delete_cascade_gone db e x R He).
  - rewrite (list_attendance_for db other date R Hne),
      (list_attendance_for _ other date C' Hne).
    cbn [fst]. f_equal. f_equal.
    change (attendance (delete_cascade e db))
      with (filter (fun a => negb (AttendanceModel.employee_id a =? EmployeeModel.id e))
                   (attendance db)).
    rewrite filter_twice.
    apply filter_ext_in. intros a Ha.
    destruct (owner_exists db R a Ha) as [x (Hx & E & O)].
    destruct (AttendanceModel.employee_id a =? EmployeeModel.id e) eqn:Q; cbn [negb andb].
    + apply Z.eqb_eq in Q. rewrite <- E in Q.
      apply (NoDup_map_inj EmployeeModel.id _ x e (pk_employees db R) Hx He) in Q.
      subst x. unfold owner_is. rewrite O. symmetry. apply String.eqb_neq. congruence.
    + apply Z.eqb_neq in Q. rewrite <- E in Q.
      unfold owner_is. rewrite O. unfold employee_of. rewrite <- E.
      now rewrite (find_employee_pk _ C' x (Keep x Hx Q)).
Qed.

Lemma delete_leaves_others_witness :
  fst (get_employee "E2" (snd (delete_employee "E1" db_week)))
  = fst (get_employee "E2" db_week)
  /\ fst (list_attendance (Some "E2") None (snd (delete_employee "E1" db_week)))
     = fst (list_attendance (Some "E2") None db_week).
Proof.
  assert (H : In (employee_row 1 ann) (employees db_week))
    by (vm_compute; left; reflexivity).
  exact (delete_leaves_others db_week (employee_row 1 ann) "E2" None
           reachable_db_week H ltac:(discriminate) ltac:(discriminate)).
Defined.

(** X11. After an employee was deleted, in a reachable session, deleting
    the same identifier again answers 404 and changes nothing, and the
    identifier and the e-mail address are free again: a body with both is
    created with 201 under a new primary key, can be read back, and starts
    with no attendance at all. *)
Theorem delete_then_create_again (db : Session) (e : EmployeeModel.t) :
  reachable db -> In e (employees db) ->
  exists db',
    delete_employee (EmployeeModel.employee_id e) db =
    (Response 200
       [("message",
         "Employee '" ++ EmployeeModel.employee_id e ++ "' deleted successfully")], db')
    /\ delete_employee (EmployeeModel.employee_id e) db' =
       (HTTPException 404
          ("Employee '" ++ EmployeeModel.employee_id e ++ "' not found"), db')
    /\ (forall raw data : EmployeeCreate.t,
          EmployeeCreate.validate raw = Valid data ->
          EmployeeCreate.employee_id data = EmployeeModel.employee_id e ->
          EmployeeCreate.email data = EmployeeModel.email e ->
          exists db'',
            post_employees raw db' = (Response 201 data, db'')
            /\ get_employee (EmployeeModel.employee_id e) db'' = (Response 200 data, db'')
            /\ (forall x, In x (employees db'') ->
                  EmployeeModel.employee_id x = EmployeeModel.employee_id e ->
                  EmployeeModel.id e < EmployeeModel.id x)
            /\ list_attendance (Some (EmployeeModel.employee_id e)) None db''
               = (Response 200 [], db'')).
Proof.
  intros R He. apply reachable_consistent in R.
  pose proof (consistent_delete e db R) as C'.
  exists (delete_cascade e db).
  split; [now apply delete_employee_found|].
  assert (Gone : forall x, In x (employees (delete_cascade e db)) ->
                   EmployeeModel.employee_id x <> EmployeeModel.employee_id e).
  { intros x Hx. now apply (delete_cascade_gone db e x R He) in Hx. }
  split.
  { unfold delete_employee.
    now rewrite (proj2 (find_employee_none _ _) Gone). }
  intros raw data V Hid Hmail.
  pose proof (employee_validate_idem raw data V) as V'.
  set (db1 := delete_cascade e db) in *.
  assert (E : create_employee data db1 =
              (Response 201 data,
               mkSession (employees db1 ++ [employee_row (employees_id_seq db1) data])
                         (attendance db1) (employees_id_seq db1 + 1)
                         (attendance_id_seq db1))).
  { apply create_employee_inserts; [exact C' | exact V' | |].
    - rewrite Hid. exact Gone.
    - rewrite Hmail. intros x Hx Q.
      apply (delete_cascade_gone db e x R He) in Hx. destruct Hx as (Hx & _ & N).
      apply N. f_equal.
      now apply (NoDup_map_inj EmployeeModel.email _ x e (uq_email db R)). }
  pose proof (consistent_create_employee raw data db1 C' V) as C''.
  rewrite E in C''. cbn [snd] in C''.
  set (row := employee_row (employees_id_seq db1) data) in *.
  set (db2 := mkSession _ _ _ _) in *.
  assert (Hrow : In row (employees db2))
    by (cbn [db2 employees]; apply in_app_iff; right; now left).
  assert (Old : forall x, In x (employees db2) -> x = row \/ In x (employees db1)).
  { intros x Hx. cbn [db2 employees] in Hx. apply in_app_iff in Hx.
    destruct Hx as [Hx|[<-|[]]]; auto. }
  exists db2. split; [unfold post_employees; now rewrite V|].
  split; [|split].
  - rewrite <- Hid.
    pose proof (get_employee_found db2 C'' row Hrow) as G.
    unfold row in G at 2. rewrite row_schema_employee_row in G. exact G.
  - intros x Hx Ex. destruct (Old x Hx) as [->|Hx1]; [|now elim (Gone x Hx1)].
    cbn [row employee_row EmployeeModel.id db1 delete_cascade employees_id_seq].
    exact (proj1 (Forall_forall _ _) (seq_employees db R) e He).
  - rewrite list_attendance_for; [|exact C''|].
    + rewrite filter_none; [reflexivity|].
      intros a Ha. destruct (owner_exists db2 C'' a Ha) as [x (Hx & Ex & O)].
      unfold owner_is. rewrite O. apply String.eqb_neq.
      destruct (Old x Hx) as [->|Hx1]; [|now apply Gone].
      exfalso.
      destruct (owner_exists db1 C' a Ha) as [y (Hy & Ey & _)].
      pose proof (proj1 (Forall_forall _ _) (seq_employees db1 C') y Hy) as L.
      cbn [row employee_row EmployeeModel.id] in Ex. cbn beta in L. lia.
    + apply nonempty_true. now apply (employee_id_nonempty db).
Qed.

Lemma delete_then_create_again_witness :
  exists db',
    delete_employee "E1" db_week =
    (Response 200 [("message", "Employee 'E1' deleted successfully")], db')
    /\ delete_employee "E1" db' = (HTTPException 404 "Employee 'E1' not found", db')
    /\ exists db'',
         post_employees ann_raw db' = (Response 201 ann, db'')
         /\ get_employee "E1" db'' = (Response 200 ann, db'')
         /\ list_attendance (Some "E1") None db'' = (Response 200 [], db'').
Proof.
  assert (H : In (employee_row 1 ann) (employees db_week))
    by (vm_compute; left; reflexivity).
  destruct (delete_then_create_again db_week (employee_row 1 ann) reachable_db_week H)
    as (db' & D1 & D2 & Again).
  exists db'. split; [exact D1|]. split; [exact D2|].
  destruct (Again ann_raw ann eq_refl eq_refl eq_refl) as (db'' & P & G & _ & L).
  exists db''. split; [exact P|]. split; [exact G | exact L].
Defined.

(** ** Validation errors *)

Lemma nonempty_false (s : string) : nonempty s = false <-> s = "".
Proof. destruct s; simpl; split; congruence. Qed.

(** X15. A body that fails validation is answered with one message for
    each field that failed, and no other: the list of errors is not empty,
    and it holds the message of a field exactly when that field is blank
    once trimmed (for the e-mail address: does not match the pattern once
    trimmed and put in lower case; for the date: does not parse; for the
    status: is neither literal). *)
Theorem validation_errors_name_fields :
  (forall (raw : EmployeeCreate.t) (errors : list string),
     EmployeeCreate.validate raw = Invalid errors ->
     errors <> []
     /\ (In "Employee ID is required" errors
         <-> strip (EmployeeCreate.employee_id raw) = "")
     /\ (In "Full name is required" errors
         <-> strip (EmployeeCreate.full_name raw) = "")
     /\ (In "Invalid email format" errors
         <-> fullmatch pattern (lower (strip (EmployeeCreate.email raw))) = false)
     /\ (In "Department is required" errors
         <-> strip (EmployeeCreate.department raw) = ""))
  /\ (forall (raw : AttendanceCreate.t) (errors : list string),
        AttendanceCreate.validate raw = Invalid errors ->
        errors <> []
        /\ (In "Employee ID is required" errors
            <-> strip (AttendanceCreate.employee_id raw) = "")
        /\ (In "Invalid date format. Use YYYY-MM-DD" errors
            <-> fromisoformat (AttendanceCreate.date raw) = None)
        /\ (In "Input should be 'Present' or 'Absent'" errors
            <-> AttendanceCreate.status raw <> "Present"
                /\ AttendanceCreate.status raw <> "Absent")).
Proof.
  split.
  - intros [a b c d] errors.
    unfold EmployeeCreate.validate, EmployeeCreate.new,
      EmployeeCreate.validate_employee_id, EmployeeCreate.validate_full_name,
      EmployeeCreate.validate_email, EmployeeCreate.validate_department.
    cbn [EmployeeCreate.employee_id EmployeeCreate.full_name EmployeeCreate.email
         EmployeeCreate.department].
    rewrite re_match_normalised, <- !nonempty_false.
    destruct (nonempty (strip a)), (nonempty (strip b)),
      (fullmatch pattern (lower (strip c))), (nonempty (strip d));
      cbn; intros H; try discriminate H; injection H as <-;
      (split; [discriminate|]); cbn; repeat split; intros;
      repeat match goal with
             | H : _ \/ _ |- _ => destruct H
             | H : False |- _ => destruct H
             end;
      try discriminate; try reflexivity; auto.
  - intros [a d s] errors.
    unfold AttendanceCreate.validate, AttendanceCreate.new,
      AttendanceCreate.validate_employee_id, AttendanceCreate.validate_date,
      AttendanceCreate.validate_status.
    cbn [AttendanceCreate.employee_id AttendanceCreate.date AttendanceCreate.status].
    rewrite <- !nonempty_false, <- !String.eqb_neq, <- orb_false_iff.
    destruct (nonempty (strip a)), (fromisoformat d),
      (String.eqb s "Present" || String.eqb s "Absent");
      cbn; intros H; try discriminate H; injection H as <-;
      (split; [discriminate|]); cbn; repeat split; intros;
      repeat match goal with
             | H : _ \/ _ |- _ => destruct H
             | H : False |- _ => destruct H
             end;
      try discriminate; try reflexivity; auto.
Qed.

Lemma validation_errors_name_fields_witness :
  In "Full name is required" ["Full name is required"; "Invalid email format"]
  <-> strip "   " = "".
Proof.
  exact (proj1 (proj2 (proj2
    (proj1 validation_errors_name_fields
       (EmployeeCreate.Build "E5" "   " "nobody" "Eng")
       ["Full name is required"; "Invalid email format"] eq_refl)))).
Defined.

(** ** Marking attendance and the other employees *)

Lemma owner_is_employees (db db' : Session) (v : string) (a : AttendanceModel.t) :
  employees db' = employees db -> owner_is db' v a = owner_is db v a.
Proof. intros H. unfold owner_is, employee_of. now rewrite H. Qed.

(** X16. Marking attendance for one employee, in a reachable session,
    never changes what is listed for another: the attendance list filtered
    by any non-empty identifier other than the trimmed one of the body
    answers as it did before the request, whatever the date parameter. *)
Theorem mark_leaves_others (raw : AttendanceCreate.t) (db : Session)
    (other : string) (date : option string) :
  reachable db -> other <> "" ->
  strip (AttendanceCreate.employee_id raw) <> other ->
  fst (list_attendance (Some other) date (snd (post_attendance raw db)))
  = fst (list_attendance (Some other) date db).
Proof.
  intros R Hne Ho. apply reachable_consistent in R.
  unfold post_attendance.
  destruct (AttendanceCreate.validate raw) as [data|errors] eqn:V; [|reflexivity].
  assert (Hd : AttendanceCreate.employee_id data <> other).
  { unfold AttendanceCreate.validate in V. apply attendance_new_valid in V.
    destruct V as (_ & _ & _ & ->). exact Ho. }
  destruct (find (fun e => String.eqb (EmployeeModel.employee_id e)
                                      (AttendanceCreate.employee_id data)) (employees db))
    as [e|] eqn:F; [|unfold mark_attendance; now rewrite F].
  apply find_employee_some in F. destruct F as [He Hid].
  destruct (validated_date_parses raw data V) as [d Pd].
  destruct (mark_attendance_core raw data db e d R V He Hid Pd)
    as (db' & E & C' & Hemp & Hup & Hins & _).
  rewrite E. cbn [snd].
  rewrite (list_attendance_for db other date R Hne),
    (list_attendance_for db' other date C' Hne).
  cbn [fst]. f_equal.
  assert (Mine : forall a, In a (attendance db) ->
                   same_key (EmployeeModel.id e) d a = true ->
                   owner_is db other a = false).
  { intros a Ha K. apply same_key_key in K. unfold key in K. injection K as K _.
    destruct (owner_exists db R a Ha) as [x (Hx & Ex & O)].
    unfold owner_is. rewrite O. apply String.eqb_neq. intros Q. apply Hd.
    rewrite <- Hid, <- Q. f_equal.
    apply (NoDup_map_inj EmployeeModel.id _ e x (pk_employees db R) He Hx). congruence. }
  destruct (find (same_key (EmployeeModel.id e) d) (attendance db)) as [r|] eqn:Fr.
  - apply find_some in Fr.
    rewrite Hup by (exists r; exact Fr).
    rewrite filter_map_swap, map_map.
    rewrite (filter_ext _ (owner_is db other)).
    + apply map_ext_in. intros a Ha. apply filter_In in Ha. destruct Ha as [Ha Oa].
      destruct (same_key (EmployeeModel.id e) d a) eqn:K; [|reflexivity].
      rewrite (Mine a Ha K) in Oa. discriminate.
    + intros a. rewrite (owner_is_employees db db' other _ Hemp).
      now destruct (same_key (EmployeeModel.id e) d a).
  - rewrite Hins by (now apply find_none).
    rewrite filter_app. cbn [filter].
    rewrite (owner_is_employees db db' other _ Hemp).
    assert (Q : owner_is db other
                  (AttendanceModel.Build (attendance_id_seq db) (EmployeeModel.id e) d
                                         (AttendanceCreate.status data)) = false).
    { unfold owner_is, employee_of. cbn [AttendanceModel.employee_id].
      rewrite (find_employee_pk db R e He). apply String.eqb_neq. congruence. }
    rewrite Q, app_nil_r. f_equal. apply filter_ext. intros a.
    apply (owner_is_employees db db' other a Hemp).
Qed.

Lemma mark_leaves_others_witness :
  fst (list_attendance (Some "E2") None
         (snd (post_attendance (absent "E1" "2024-01-01") db_week)))
  = fst (list_attendance (Some "E2") None db_week).
Proof.
  exact (mark_leaves_others (absent "E1" "2024-01-01") db_week "E2" None
           reachable_db_week ltac:(discriminate) ltac:(discriminate)).
Defined.
